(** * P6: a gridded parameter study, verified against its specification

    A shallow embedding of [src/p6.py].  Python floats are IEEE 754
    binary64 numbers, modelled by Rocq's primitive [float]; Python
    integers are [Z]; an exception that escapes a function is the left
    summand of the result type [py]. *)

From Stdlib Require Import Ascii String ZArith List Floats Lia Bool Permutation.
Import ListNotations.

Set Warnings "-inexact-float".

Open Scope Z_scope.

(** ** Exceptions and the error monad *)

(** The exceptions that the modelled code can meet. *)
Inductive exn : Type :=
| ZeroDivisionError
| OverflowError
| ValueError
| TypeError
| AttributeError (obj attr : string)
| ImportError (msg : string)
| OSError (errno : Z) (strerror : string)
| SystemExit (code : Z).

(** The exceptions of class [Exception], which [except Exception]
    catches.  [SystemExit] derives from [BaseException] only; it
    stands here for the exceptions outside [Exception]. *)
Definition is_Exception (e : exn) : bool :=
  match e with
  | SystemExit _ => false
  | _ => true
  end.

(** A computation that returns an [A] or raises. *)
Definition py (A : Type) : Type := (exn + A)%type.

Definition ret {A} (a : A) : py A := inr a.
Definition raise {A} (e : exn) : py A := inl e.
Definition bind {A B} (m : py A) (k : A -> py B) : py B :=
  match m with
  | inl e => inl e
  | inr a => k a
  end.

Notation "x <- m ;; k" := (bind m (fun x => k))
  (at level 61, m at next level, right associativity).

(** A list comprehension [[f x for x in l]]: [f] is run on the elements
    from left to right and the first exception stops it. *)
Fixpoint mapM {A B} (f : A -> py B) (l : list A) : py (list B) :=
  match l with
  | [] => ret []
  | a :: l' => b <- f a ;; bs <- mapM f l' ;; ret (b :: bs)
  end.

(** ** Python's numbers *)

Module PyFloat.

(** [a / b] on floats: a zero divisor (of either sign) raises. *)
Definition truediv (a b : float) : py float :=
  if is_zero b then raise ZeroDivisionError else ret (a / b)%float.

(** The integer part of [m * 2^e], for a positive mantissa [m]. *)
Definition magnitude (m : positive) (e : Z) : Z :=
  if 0 <=? e then Z.shiftl (Zpos m) e else Z.shiftr (Zpos m) (- e).

(** [int(x)]: truncation toward zero; NaN raises [ValueError] and an
    infinity raises [OverflowError]. *)
Definition int (x : float) : py Z :=
  match Prim2SF x with
  | S754_nan => raise ValueError
  | S754_infinity _ => raise OverflowError
  | S754_zero _ => ret 0
  | S754_finite s m e => ret (if s then - magnitude m e else magnitude m e)
  end.

(** The integers whose nearest double is finite: those of magnitude
    below [2^1024 - 2^970], halfway between the largest double and
    [2^1024]. *)
Definition int_max : Z := 2 ^ 1024 - 2 ^ 970.

(** The double nearest to an integer (ties to even). *)
Definition nearest (z : Z) : float :=
  SF2Prim (binary_normalize prec emax z 0 false).

(** [float(z)], the conversion that [z * step] applies to its integer
    operand: correctly rounded, and [OverflowError] beyond the
    doubles. *)
Definition of_int (z : Z) : py float :=
  if Z.abs z <? int_max then ret (nearest z) else raise OverflowError.

(** [z * y] for an integer [z] and a float [y]. *)
Definition rmul (z : Z) (y : float) : py float :=
  fz <- of_int z ;; ret (fz * y)%float.

End PyFloat.

(** [range(a, b)]: the integers [a, a+1, ..., b-1], none when [b <= a]. *)
Definition range (a b : Z) : list Z :=
  map (fun i => a + Z.of_nat i) (seq 0 (Z.to_nat (b - a))).

(** ** The Range Expander *)

(** [float_range(start, stop, step)]:
    [[x * step for x in range(int(start/step), int(stop/step)+1)]]. *)
Definition float_range (start stop step : float) : py (list float) :=
  q1 <- PyFloat.truediv start step ;;
  lo <- PyFloat.int q1 ;;
  q2 <- PyFloat.truediv stop step ;;
  hi <- PyFloat.int q2 ;;
  mapM (fun x => PyFloat.rmul x step) (range lo (hi + 1)).

(** The range as the specification words it: the terms
    [start + k*step] for [k = 0, 1, ...], as many as
    [floor((stop-start)/step) + 1].  For a non-negative quotient the
    floor is the truncation. *)
Definition spec_float_range (start stop step : float) : py (list float) :=
  q <- PyFloat.truediv (stop - start) step ;;
  n <- PyFloat.int q ;;
  mapM (fun k => ks <- PyFloat.rmul k step ;; ret (start + ks)%float)
       (range 0 (n + 1)).

(** The number that a double is, when it is one: [fst] times two to
    the power [snd]. *)
Definition spec_number (x : float) : option (Z * Z) :=
  match Prim2SF x with
  | S754_zero _ => Some (0, 0)
  | S754_finite s m e => Some (if s then Zneg m else Zpos m, e)
  | _ => None
  end.

(** "[x] is an integer multiple of [y]", as the specification words
    it: [x] is [k] times [y] as numbers, without rounding. *)
Definition spec_multiple (k : Z) (x y : float) : Prop :=
  match spec_number x, spec_number y with
  | Some (mx, ex), Some (my, ey) =>
      mx * 2 ^ (ex - Z.min ex ey) = k * my * 2 ^ (ey - Z.min ex ey)
  | _, _ => False
  end.

(** ** The Parameter Space Builder *)

(** The [Namespace] that the generated parser returns: one
    [(START, STOP, DELTA)] triple per parameter of the target, in the
    order of declaration ([vars(args)] keeps it). *)
Definition Namespace : Type := list (string * (float * float * float)).

(** [itertools.product] over the pools: every result so far is extended by
    every element of the next pool, so the last pool varies fastest. *)
Definition product {A} (pools : list (list A)) : list (list A) :=
  fold_left
    (fun result pool => flat_map (fun x => map (fun y => x ++ [y]) pool) result)
    pools [[]].

(** [yield_parameter_space(args)]: every axis is expanded first, then
    the product is formed. *)
Definition yield_parameter_space (args : Namespace) : py (list (list float)) :=
  space <- mapM (fun cs => let '(start, stop, step) := snd cs in
                           float_range start stop step) args ;;
  ret (product space).

(** ** Exit statuses, values and attributes *)

Inductive EXIT : Type :=
| OK
| NO_MODULE_NAMED_Y
| NO_MAIN_IN_MODULE
| WRITE_IN_THREAD_FAILED.

Definition EXIT_value (status : EXIT) : Z :=
  match status with
  | OK => 0
  | NO_MODULE_NAMED_Y => 1
  | NO_MAIN_IN_MODULE => 2
  | WRITE_IN_THREAD_FAILED => 7
  end.

(** The members of the enumeration, by name. *)
Definition EXIT_members : list (string * EXIT) :=
  [ ("OK", OK);
    ("NO_MODULE_NAMED_Y", NO_MODULE_NAMED_Y);
    ("NO_MAIN_IN_MODULE", NO_MAIN_IN_MODULE);
    ("WRITE_IN_THREAD_FAILED", WRITE_IN_THREAD_FAILED) ]%string.

(** [EXIT.name]: a name that is not a member raises. *)
Definition EXIT_getattr (name : string) : py EXIT :=
  match find (fun m => String.eqb (fst m) name) EXIT_members with
  | Some m => ret (snd m)
  | None => raise (AttributeError "EXIT" name)
  end.

(** What [print] is given. *)
Inductive value : Type :=
| Str (s : string)
| Int (z : Z)
| PyNone.

(** [e.attr] on a caught exception.  An [ImportError] carries [msg],
    [name] and [path]; an [OSError] (Python's [IOError]) carries
    [errno], [strerror], [filename] and [filename2]. *)
Definition exn_getattr (e : exn) (attr : string) : py value :=
  match e with
  | ImportError msg =>
      if String.eqb attr "msg" then ret (Str msg)
      else if String.eqb attr "name" || String.eqb attr "path" then ret PyNone
      else raise (AttributeError "ImportError" attr)
  | OSError errno strerror =>
      if String.eqb attr "errno" then ret (Int errno)
      else if String.eqb attr "strerror" then ret (Str strerror)
      else if String.eqb attr "filename" || String.eqb attr "filename2"
      then ret PyNone
      else raise (AttributeError "OSError" attr)
  | _ => raise (AttributeError "Exception" attr)
  end.

Definition is_IOError (e : exn) : bool :=
  match e with OSError _ _ => true | _ => false end.

Definition is_ImportError (e : exn) : bool :=
  match e with ImportError _ => true | _ => false end.

(** ** The process: output, swap file and the two pools *)

(** How a call of the target ended: the state of its [Future]. *)
Inductive outcome : Type :=
| Returned (result : float)
| Raised (e : exn).

(** [fp = open("out.swp", "a")] is a text file with a buffer: a line
    that [fp.write] has taken waits in the buffer of [fp] and reaches
    the file at a flush, at the latest the one of [fp.close()]. *)
Record world : Type := {
  stdout : list value;                      (* printed, oldest first *)
  out_swp : list string;                    (* the lines in the file out.swp *)
  fp_buffer : list string;                  (* taken by fp.write, not yet in the file *)
  exe : list (list float);                  (* submitted to the process pool, not done *)
  thread_pool : list (list float * float)   (* save tasks submitted, not run *)
}.

Definition world0 : world :=
  {| stdout := []; out_swp := []; fp_buffer := []; exe := []; thread_pool := [] |}.

(** A computation with effects on the process that returns or raises. *)
Definition IO (A : Type) : Type := world -> world * py A.

Definition io_ret {A} (a : A) : IO A := fun w => (w, ret a).
Definition io_bind {A B} (m : IO A) (k : A -> IO B) : IO B :=
  fun w => match m w with
           | (w', inl e) => (w', inl e)
           | (w', inr a) => k a w'
           end.
Definition lift {A} (m : py A) : IO A := fun w => (w, m).

Notation "x <~ m ;; k" := (io_bind m (fun x => k))
  (at level 61, m at next level, right associativity).

(** [try: body  except <handles> as e: handler e]. *)
Definition try_except {A} (body : IO A) (handles : exn -> bool)
  (handler : exn -> IO A) : IO A :=
  fun w => match body w with
           | (w', inl e) => if handles e then handler e w' else (w', inl e)
           | (w', inr a) => (w', inr a)
           end.

Definition print (v : value) : IO unit :=
  fun w => ({| stdout := stdout w ++ [v]; out_swp := out_swp w;
               fp_buffer := fp_buffer w;
               exe := exe w; thread_pool := thread_pool w |}, ret tt).

(** [fp.write(line)].  A write that the buffer takes returns: the line
    is in the buffer, not yet in the file.  A write that has to flush
    can find the device refusing, which is not the program's choice:
    [fault] is the exception that the call then raises, and the line
    is not taken. *)
Definition fp_write (fault : option exn) (line : string) : IO unit :=
  fun w => match fault with
           | Some e => (w, raise e)
           | None => ({| stdout := stdout w; out_swp := out_swp w;
                         fp_buffer := fp_buffer w ++ [line];
                         exe := exe w; thread_pool := thread_pool w |}, ret tt)
           end.

(** A flush that the device accepts: the buffered lines are in the
    file. *)
Definition fp_flush (w : world) : world :=
  {| stdout := stdout w; out_swp := out_swp w ++ fp_buffer w; fp_buffer := [];
     exe := exe w; thread_pool := thread_pool w |}.

(** A flush that the device refuses: the buffered lines are lost, the
    text layer having cleared its buffer before the attempt. *)
Definition fp_lose (w : world) : world :=
  {| stdout := stdout w; out_swp := out_swp w; fp_buffer := [];
     exe := exe w; thread_pool := thread_pool w |}.

(** [fp.close()]: it flushes what is buffered.  With nothing buffered
    nothing is written and the file is closed; otherwise [fault] is the
    exception that the device answers with, if any, and [close] raises
    it after the buffered lines are lost. *)
Definition fp_close (fault : option exn) : IO unit :=
  fun w => match fp_buffer w, fault with
           | [], _ => (w, ret tt)
           | _ :: _, None => (fp_flush w, ret tt)
           | _ :: _, Some e => (fp_lose w, raise e)
           end.

(** [exe.submit], given the target and the tuple [state]. *)
Definition exe_submit (state : list float) : IO unit :=
  fun w => ({| stdout := stdout w; out_swp := out_swp w; fp_buffer := fp_buffer w;
               exe := exe w ++ [state]; thread_pool := thread_pool w |}, ret tt).

(** [thread_pool.submit(save, state, result, fp)]. *)
Definition thread_pool_submit (state : list float) (result : float) : IO unit :=
  fun w => ({| stdout := stdout w; out_swp := out_swp w; fp_buffer := fp_buffer w;
               exe := exe w;
               thread_pool := thread_pool w ++ [(state, result)] |}, ret tt).

(** A task leaves its pool when a worker takes it. *)
Definition exe_take (l1 l2 : list (list float)) (w : world) : world :=
  {| stdout := stdout w; out_swp := out_swp w; fp_buffer := fp_buffer w;
     exe := l1 ++ l2; thread_pool := thread_pool w |}.

Definition thread_pool_take (l1 l2 : list (list float * float)) (w : world) : world :=
  {| stdout := stdout w; out_swp := out_swp w; fp_buffer := fp_buffer w;
     exe := exe w; thread_pool := l1 ++ l2 |}.

(** The thread that manages the process pool has ended: the calls that
    are not done are never taken up again. *)
Definition exe_abandon (w : world) : world :=
  {| stdout := stdout w; out_swp := out_swp w; fp_buffer := fp_buffer w;
     exe := []; thread_pool := thread_pool w |}.

(** [Future._invoke_callbacks], run by the thread that manages the
    process pool when a call is done: the callback runs under
    [except Exception], so an exception of that class is logged and
    goes no further.  An exception outside [Exception] leaves the
    manager thread, which ends with it. *)
Definition invoke_callbacks (callback : IO unit) (w : world) : world :=
  match callback w with
  | (w', inl e) => if is_Exception e then w' else exe_abandon w'
  | (w', inr _) => w'
  end.

(** [future.result()]: the value, or the exception of the call again. *)
Definition future_result (future : outcome) : py float :=
  match future with
  | Returned result => ret result
  | Raised e => raise e
  end.

Definition newline : string := String "010"%char EmptyString.

(** ** The Result Sink and the Study Orchestrator *)

Section Study.

(** Python's [format(x, ".6")]: a float in six significant digits. *)
Variable fmt6 : float -> string.

(** The line of a result: the parameters, then the result. *)
Definition record_line (state : list float) (result : float) : string :=
  (String.concat " " (map fmt6 state) ++ " " ++ fmt6 result ++ newline)%string.

(** [save(state, result, fp)]; without a [return] the call gives
    [None]. *)
Definition save (fault : option exn) (state : list float) (result : float)
  : IO (option EXIT) :=
  let line := record_line state result in
  try_except
    (_ <~ fp_write fault line ;; io_ret None)
    is_IOError
    (fun e =>
       msg <~ lift (exn_getattr e "msg") ;;
       _ <~ print msg ;;
       _ <~ print (Str "Thread failed to write... ") ;;
       status <~ lift (EXIT_getattr "WRITE_IN_THREAD_FAILED") ;;
       io_ret (Some status)).

(** [save_on_complete(future, state, thread_pool, fp)]. *)
Definition save_on_complete (future : outcome) (state : list float) : IO unit :=
  result <~ lift (future_result future) ;;
  thread_pool_submit state result.

(** What the two pools and the output stream do, one at a time. *)
Inductive event : Type :=
| Completed (state : list float) (future : outcome)
| Saved (state : list float) (result : float) (fault : option exn)
        (returned : py (option EXIT))
| Flushed (lines : list string)
| Lost (lines : list string)
| CloseFailed (e : exn) (lines : list string).

(** One step of the pools and of the stream.  Any submitted call of
    the target may be the next to complete, and its callback
    [save_on_complete] runs in the manager thread of the pool (a call
    is taken to complete after [main] has registered the callback).
    Any waiting save task may be the next to run; what it returns or
    raises stays in a future that nobody reads.  The buffer of [fp]
    is flushed when it is full, which the model allows at any moment;
    a flush that the device refuses loses the buffered lines. *)
Inductive step (target : list float -> outcome) : world -> event -> world -> Prop :=
| step_complete w l1 state l2 :
    exe w = l1 ++ state :: l2 ->
    step target w
      (Completed state (target state))
      (invoke_callbacks (save_on_complete (target state) state) (exe_take l1 l2 w))
| step_save w l1 state result l2 fault :
    thread_pool w = l1 ++ (state, result) :: l2 ->
    step target w
      (Saved state result fault
         (snd (save fault state result (thread_pool_take l1 l2 w))))
      (fst (save fault state result (thread_pool_take l1 l2 w)))
| step_flush w :
    fp_buffer w <> [] ->
    step target w (Flushed (fp_buffer w)) (fp_flush w)
| step_lose w :
    fp_buffer w <> [] ->
    step target w (Lost (fp_buffer w)) (fp_lose w).

(** A run of the pools with its events, oldest first. *)
Inductive run (target : list float -> outcome) : world -> list event -> world -> Prop :=
| run_done w : run target w [] w
| run_step w ev w1 evs w2 :
    step target w ev w1 -> run target w1 evs w2 -> run target w (ev :: evs) w2.

(** Both pools are drained: nothing is submitted and not done. *)
Definition drained (w : world) : Prop :=
  exe w = [] /\ thread_pool w = [].

(** The event is a refusal of the output stream: of a write, of a
    flush, or of the close. *)
Definition write_failed (ev : event) : Prop :=
  match ev with
  | Saved _ _ (Some _) _ => True
  | Lost _ => True
  | CloseFailed _ _ => True
  | _ => False
  end.

(** The call ended with an exception outside [Exception], which ends
    the manager thread of the process pool. *)
Definition fatal (future : outcome) : bool :=
  match future with
  | Raised e => negb (is_Exception e)
  | Returned _ => false
  end.

(** The scheduler that completes the calls in the order of submission,
    as long as the manager thread lives, and then runs the save tasks
    in order; [faults] tells what the output stream answers to each
    write.  It never flushes: the lines wait for the close. *)
Fixpoint fifo_saves (faults : list float -> float -> option exn)
  (tasks : list (list float * float)) (w : world) : list event * world :=
  match tasks with
  | [] => ([], w)
  | (state, result) :: rest =>
      let r := save (faults state result) state result (thread_pool_take [] rest w) in
      let '(evs, w') := fifo_saves faults rest (fst r) in
      (Saved state result (faults state result) (snd r) :: evs, w')
  end.

Fixpoint fifo_calls (faults : list float -> float -> option exn)
  (target : list float -> outcome) (calls : list (list float))
  (w : world) : list event * world :=
  match calls with
  | [] => fifo_saves faults (thread_pool w) w
  | state :: rest =>
      let w1 := invoke_callbacks (save_on_complete (target state) state)
                                 (exe_take [] rest w) in
      let '(evs, w') := if fatal (target state)
                        then fifo_saves faults (thread_pool w1) w1
                        else fifo_calls faults target rest w1 in
      (Completed state (target state) :: evs, w')
  end.

Definition fifo (faults : list float -> float -> option exn)
  (target : list float -> outcome) (w : world) : list event * world :=
  fifo_calls faults target (exe w) w.

(** The target: what carries [__annotations__] (parameter name and
    type name, in order; the key ["return"] when a return type is
    declared) and what a call of it with a tuple does.  A function is
    such an object; so is a class with annotated attributes, or an
    instance of one, whose call may raise [TypeError]. *)
Record function : Type := {
  annotations : list (string * string);
  call : list float -> outcome
}.

(** What a module can hold under the name [main]: an object with
    [__annotations__], or a plain value (a string, an integer or
    [None]), which has no such attribute and cannot be called. *)
Inductive attribute : Type :=
| Function (f : function)
| Object (v : value).

Record module : Type := {
  mod_name : string;
  mod_main : option attribute
}.

(** What the operating system and the command line give to [main]. *)
Record environment : Type := {
  import_module : string -> py module;   (* importlib.import_module *)
  argv : Namespace;                      (* the options --NAME START STOP DELTA, converted *)
  swap_exists : bool;                    (* os.path.exists("out.swp") *)
  cpu_count : option Z                   (* os.cpu_count() *)
}.

(** [make_parser_for_main(module)]: the names of the required options
    and the return type.  The parameters are taken as floats. *)
Definition make_parser_for_main (m : module) : py (list string * option string) :=
  match mod_main m with
  | None => raise (AttributeError "module" "main")
  | Some (Object _) => raise (AttributeError "object" "__annotations__")
  | Some (Function f) =>
      let params := annotations f in
      let rtype := option_map snd (find (fun p => String.eqb (fst p) "return") params) in
      let params := filter (fun p => negb (String.eqb (fst p) "return")) params in
      ret (map fst params, rtype)
  end.

(** [parser.parse_known_args()]: every option of the parser is
    required; a missing one ends the process with status 2. *)
Definition parse_known_args (parser : list string) (options : Namespace) : py Namespace :=
  mapM (fun arg =>
          match find (fun o => String.eqb (fst o) arg) options with
          | Some o => ret o
          | None => raise (SystemExit 2)
          end) parser.

(** [os.cpu_count() - 1]; the count may be unknown ([None]). *)
Definition cores_of (count : option Z) : py Z :=
  match count with
  | Some n => ret (n - 1)
  | None => raise TypeError
  end.

(** [ProcessPoolExecutor(max_workers=n)] refuses [n <= 0]. *)
Definition ProcessPoolExecutor (n : Z) : py Z :=
  if n <=? 0 then raise ValueError else ret n.

(** Calling what the module holds under [main]. *)
Definition call_attribute (a : attribute) (state : list float) : outcome :=
  match a with
  | Function f => call f state
  | Object _ => Raised TypeError
  end.

Fixpoint for_each {A} (body : A -> IO unit) (l : list A) : IO unit :=
  match l with
  | [] => io_ret tt
  | a :: l' => _ <~ body a ;; for_each body l'
  end.

(** The process pool that [main] has started. *)
Record dispatch : Type := {
  target : list float -> outcome;
  max_workers : Z
}.

(** [main] up to the end of the submission loop: it raises, returns a
    status early, or has submitted every tuple. *)
Definition main_dispatch (env : environment) (script : string) : IO (EXIT + dispatch) :=
  imported <~ try_except
                (m <~ lift (import_module env script) ;; io_ret (inr m))
                is_ImportError
                (fun e =>
                   msg <~ lift (exn_getattr e "msg") ;;
                   _ <~ print msg ;;
                   _ <~ print (Str "did you prehaps add .py at the end of the filename?") ;;
                   status <~ lift (EXIT_getattr "NO_MODULE_NAMED_Y") ;;
                   io_ret (inl status)) ;;
  match imported with
  | inl status => io_ret (inl status)
  | inr m =>
      match mod_main m with
      | None =>
          _ <~ print (Str ("no main function found in " ++ mod_name m)) ;;
          status <~ lift (EXIT_getattr "NO_MAIN") ;;
          io_ret (inl status)
      | Some a =>
          parsed <~ lift (make_parser_for_main m) ;;
          args <~ lift (parse_known_args (fst parsed) (argv env)) ;;
          _ <~ (if swap_exists env then print (Str "resetting swap file...")
                else io_ret tt) ;;
          cores <~ lift (cores_of (cpu_count env)) ;;
          workers <~ lift (ProcessPoolExecutor cores) ;;
          _ <~ print (Str "starting task submission") ;;
          space <~ lift (yield_parameter_space args) ;;
          _ <~ for_each exe_submit space ;;
          io_ret (inr {| target := call_attribute a; max_workers := workers |})
      end
  end.

(** [main] after both pools are shut down: [fp.close()], whose flush
    the device accepts or refuses as [fault] tells, and the rest (the
    elapsed time that it prints is left out). *)
Definition main_finish (fault : option exn) : IO EXIT :=
  _ <~ fp_close fault ;;
  _ <~ print (Str "All tasks done, file closed succesfully") ;;
  lift (EXIT_getattr "OK").

(** What [fp.close()] adds to the events: nothing when nothing is
    buffered. *)
Definition close_events (fault : option exn) (w : world) : list event :=
  match fp_buffer w, fault with
  | [], _ => []
  | _ :: _, None => [Flushed (fp_buffer w)]
  | _ :: _, Some e => [CloseFailed e (fp_buffer w)]
  end.

(** [main(args)] for [args.script = script]: the events of the pools
    and of the stream, the process at the end, and what [main] returns
    or raises. *)
Inductive main (env : environment) (script : string)
  : list event -> world -> py EXIT -> Prop :=
| main_raises w e :
    main_dispatch env script world0 = (w, inl e) ->
    main env script [] w (inl e)
| main_early w status :
    main_dispatch env script world0 = (w, inr (inl status)) ->
    main env script [] w (inr status)
| main_study w d evs w' fault :
    main_dispatch env script world0 = (w, inr (inr d)) ->
    run (target d) w evs w' ->
    drained w' ->
    main env script (evs ++ close_events fault w')
      (fst (main_finish fault w')) (snd (main_finish fault w')).

(** [main] under the scheduler [fifo], on a device that answers
    [faults] to the writes and [fault] to the close: the events, the
    process at the end, and what [main] returns or raises. *)
Definition main_under_fifo (faults : list float -> float -> option exn)
  (fault : option exn) (env : environment) (script : string)
  : list event * world * py EXIT :=
  match main_dispatch env script world0 with
  | (w, inl e) => ([], w, inl e)
  | (w, inr (inl status)) => ([], w, inr status)
  | (w, inr (inr d)) =>
      let '(evs, w') := fifo faults (target d) w in
      (evs ++ close_events fault w',
       fst (main_finish fault w'), snd (main_finish fault w'))
  end.

(** The call ended the manager thread of the process pool. *)
Definition died (ev : event) : Prop :=
  match ev with
  | Completed _ future => fatal future = true
  | _ => False
  end.

(** [exit(main(args).value)]: an exception that nobody catches ends
    the process with status 1. *)
Definition exit_status (r : py EXIT) : Z :=
  match r with
  | inr status => EXIT_value status
  | inl (SystemExit code) => code
  | inl _ => 1
  end.

End Study.

(** ** What the claims speak of *)

(** The pairs of an element of [xs] and an element of [ys] as tuples,
    the second component varying fastest. *)
Definition row_major {A} (xs ys : list A) : list (list A) :=
  flat_map (fun x => map (fun y => [x; y]) ys) xs.

Section Records.

Variable fmt6 : float -> string.

(** The lines of the save tasks that wait in the thread pool. *)
Definition lines_of_tasks (tasks : list (list float * float)) : list string :=
  map (fun t => record_line fmt6 (fst t) (snd t)) tasks.

(** The lines of the calls that return: a call that raises has none. *)
Definition lines_of_calls (target : list float -> outcome)
  (calls : list (list float)) : list string :=
  flat_map (fun state =>
              match target state with
              | Returned result => [record_line fmt6 state result]
              | Raised _ => []
              end) calls.

(** The lines that are in the file or still to come to it. *)
Definition owed (target : list float -> outcome) (w : world) : list string :=
  out_swp w ++ fp_buffer w
  ++ lines_of_tasks (thread_pool w) ++ lines_of_calls target (exe w).

End Records.

(** No call of the list ends the manager thread of the process pool:
    the target raises exceptions of class [Exception] only. *)
Definition survives (target : list float -> outcome) (calls : list (list float)) : Prop :=
  Forall (fun state => fatal (target state) = false) calls.


(** Two doubles are different when their representations are. *)
Ltac float_differ :=
  let E := fresh "E" in
  intro E; apply (f_equal Prim2SF) in E; vm_compute in E; discriminate.

(** The studies used as examples: the target [f(a) = a*2] over the
    axis [a: (0, 2, 1)], a target that raises [ValueError] at [a = 1],
    and one that calls [sys.exit(1)] there. *)
Module Example.

Definition double (state : list float) : outcome :=
  match state with
  | [a] => Returned (a * 2)%float
  | _ => Raised TypeError
  end.



Definition script (call : list float -> outcome) : module :=
  {| mod_name := "script";
     mod_main := Some (Function {| annotations := [("a", "float"); ("return", "float")]%string;
                                   call := call |}) |}.

Definition empty_script : module :=
  {| mod_name := "empty"; mod_main := None |}.

Definition env (m : module) (units : Z) : environment :=
  {| import_module := fun _ => ret m;
     argv := [("a"%string, (0, 2, 1)%float)];
     swap_exists := false;
     cpu_count := Some units |}.

(** A stand-in for the six-digit format; the claims do not depend on
    the digits. *)
Definition fmt (x : float) : string :=
  if (x =? 0)%float then "0.0"
  else if (x =? 1)%float then "1.0"
  else if (x =? 2)%float then "2.0"
  else if (x =? 4)%float then "4.0"
  else "?".

(** What a full device answers. *)
Definition device_full : exn := OSError 28 "No space left on device".

(** The three studies on a machine of four units. *)
Definition doubling : environment := env (script double) 4.




Definition no_fault (state : list float) (result : float) : option exn := None.

(** The studies under [fifo], every write taken: on a device that
    accepts the flush of the close, and the first also on a full
    device, which refuses it. *)
Definition doubling_run : list event * world * py EXIT :=
  main_under_fifo fmt no_fault None doubling "script".

Definition doubling_on_full_device : list event * world * py EXIT :=
  main_under_fifo fmt no_fault (Some device_full) doubling "script".



End Example.

(** ** What the further properties speak of *)

(** The expansion of one axis of the [Namespace]. *)
Definition expand_axis (cs : string * (float * float * float)) : py (list float) :=
  let '(start, stop, step) := snd cs in float_range start stop step.

(** The number of tuples of a space: the product of the sizes of its
    axes. *)
Definition space_size {A} (space : list (list A)) : nat :=
  fold_right Nat.mul 1%nat (map (@length A) space).

(** The calls that have completed, the save tasks that have run, and
    the save tasks that the calls of a list give on returning. *)
Definition completed (evs : list event) : list (list float) :=
  flat_map (fun ev => match ev with
                      | Completed state _ => [state]
                      | _ => []
                      end) evs.

Definition saved (evs : list event) : list (list float * float) :=
  flat_map (fun ev => match ev with
                      | Saved state result _ _ => [(state, result)]
                      | _ => []
                      end) evs.

Definition returned_tasks (target : list float -> outcome)
  (calls : list (list float)) : list (list float * float) :=
  flat_map (fun state => match target state with
                         | Returned result => [(state, result)]
                         | Raised _ => []
                         end) calls.

(** Further studies used as examples. *)
Module Cases.

(** Three axes, of three, three and two values. *)
Definition args3 : Namespace :=
  [("a", (0, 2, 1)); ("b", (0, 1, 0.5)); ("c", (0, 1, 1))]%string%float.

Definition space3 : list (list float) :=
  [[0; 1; 2]; [0; 0.5; 1]; [0; 1]]%float.

(** A target of two parameters, and a command line that gives them in
    the other order, among an option that the target does not have. *)
Definition sum (state : list float) : outcome :=
  match state with
  | [a; b] => Returned (a + b)%float
  | _ => Raised TypeError
  end.

Definition sum_function : function :=
  {| annotations := [("a", "float"); ("b", "float"); ("return", "float")]%string;
     call := sum |}.

Definition sum_script : module :=
  {| mod_name := "sum"; mod_main := Some (Function sum_function) |}.

Definition options_b_a : Namespace :=
  [("b", (0, 1, 0.5)); ("z", (0, 0, 1)); ("a", (0, 2, 1))]%string%float.

(** A module whose [main] is the number 5. *)
Definition constant_script : module :=
  {| mod_name := "constant"; mod_main := Some (Object (Int 5)) |}.

(** An environment in which no module can be imported. *)
Definition nothing_to_import : environment :=
  {| import_module := fun _ => raise (ImportError "No module named 'nothing'");
     argv := [];
     swap_exists := false;
     cpu_count := Some 4 |}.

(** The doubling target with other command lines and machines. *)
Definition doubling_with (options : Namespace) (units : Z) : environment :=
  {| import_module := fun _ => ret (Example.script Example.double);
     argv := options;
     swap_exists := true;
     cpu_count := Some units |}.

(** A target without parameters. *)
Definition answer (state : list float) : outcome :=
  match state with
  | [] => Returned 4%float
  | _ => Raised TypeError
  end.

Definition answer_function : function :=
  {| annotations := [("return", "float")]%string; call := answer |}.

Definition answer_script : module :=
  {| mod_name := "answer"; mod_main := Some (Function answer_function) |}.

End Cases.

(** * Properties *)

(** ** Comprehensions and ranges *)

Lemma mapM_pure {A B} (f : A -> py B) (g : A -> B) (l : list A) :
  (forall a, In a l -> f a = inr (g a)) ->
  mapM f l = inr (map g l).
Proof.
  induction l as [|a l IH]; intros Hf; simpl.
  - reflexivity.
  - rewrite (Hf a (or_introl eq_refl)). simpl.
    rewrite IH by (intros b Hb; apply Hf; right; exact Hb).
    reflexivity.
Qed.

Lemma mapM_length {A B} (f : A -> py B) (l : list A) (bs : list B) :
  mapM f l = inr bs -> length bs = length l.
Proof.
  revert bs. induction l as [|a l IH]; simpl; intros bs H.
  - injection H as <-. reflexivity.
  - destruct (f a) as [e|b]; simpl in H; [discriminate|].
    destruct (mapM f l) as [e|bs']; simpl in H; [discriminate|].
    injection H as <-. simpl. f_equal. apply IH. reflexivity.
Qed.

Lemma range_length (a b : Z) : length (range a b) = Z.to_nat (b - a).
Proof. unfold range. rewrite length_map, length_seq. reflexivity. Qed.

Lemma range_In (a b k : Z) : In k (range a b) <-> a <= k < b.
Proof.
  unfold range. rewrite in_map_iff. split.
  - intros (i & <- & Hi). apply in_seq in Hi. lia.
  - intros Hk. exists (Z.to_nat (k - a)). split; [lia|].
    apply in_seq. lia.
Qed.

Lemma range_cons (a b : Z) : a < b -> range a b = a :: range (a + 1) b.
Proof.
  intros Hab. unfold range.
  replace (Z.to_nat (b - a)) with (S (Z.to_nat (b - (a + 1)))) by lia.
  rewrite <- cons_seq. simpl. rewrite Z.add_0_r. f_equal.
  rewrite <- seq_shift, map_map. apply map_ext. intros i. lia.
Qed.

(** ** Truncation stays within the doubles *)

Lemma digits2_pos_bound (m : positive) : Zpos m < 2 ^ Zpos (digits2_pos m).
Proof.
  induction m as [m IH|m IH|]; simpl digits2_pos.
  - rewrite Pos2Z.inj_succ, Z.pow_succ_r by lia. lia.
  - rewrite Pos2Z.inj_succ, Z.pow_succ_r by lia. lia.
  - reflexivity.
Qed.

Lemma bounded_mantissa (m : positive) (e : Z) :
  bounded prec emax m e = true -> Zpos m < 2 ^ 53 /\ e <= 971.
Proof.
  unfold bounded, canonical_mantissa, fexp, emin, prec, emax.
  intros H. apply andb_true_iff in H as [Hc He].
  apply Z.leb_le in He.
  apply Z.eqb_eq in Hc.
  split; [|lia].
  assert (Hd : Zpos (digits2_pos m) <= 53) by lia.
  pose proof (digits2_pos_bound m) as Hm.
  assert (2 ^ Zpos (digits2_pos m) <= 2 ^ 53)
    by (apply Z.pow_le_mono_r; lia).
  lia.
Qed.

Lemma magnitude_bound (m : positive) (e : Z) :
  Zpos m < 2 ^ 53 -> e <= 971 ->
  0 <= PyFloat.magnitude m e <= (2 ^ 53 - 1) * 2 ^ 971.
Proof.
  intros Hm He. unfold PyFloat.magnitude.
  destruct (Z.leb_spec 0 e) as [H0|H0].
  - rewrite Z.shiftl_mul_pow2 by lia.
    assert (0 < 2 ^ e) by (apply Z.pow_pos_nonneg; lia).
    assert (2 ^ e <= 2 ^ 971) by (apply Z.pow_le_mono_r; lia).
    split; [lia|].
    apply Z.mul_le_mono_nonneg; lia.
  - rewrite Z.shiftr_div_pow2 by lia.
    assert (0 < 2 ^ (- e)) by (apply Z.pow_pos_nonneg; lia).
    assert (0 < 2 ^ 971) by (apply Z.pow_pos_nonneg; lia).
    assert (Zpos m / 2 ^ (- e) <= Zpos m)
      by (apply Z.div_le_upper_bound; nia).
    assert (0 <= Zpos m / 2 ^ (- e)) by (apply Z.div_pos; lia).
    split; [lia|].
    nia.
Qed.

Lemma int_bound (x : float) (z : Z) :
  PyFloat.int x = inr z -> Z.abs z < PyFloat.int_max.
Proof.
  unfold PyFloat.int. pose proof (Prim2SF_valid x) as Hv.
  assert (Hmax : (2 ^ 53 - 1) * 2 ^ 971 < PyFloat.int_max) by reflexivity.
  assert (Hpos : 0 < PyFloat.int_max) by reflexivity.
  destruct (Prim2SF x) as [s|s| |s m e]; intros H; try discriminate H.
  - injection H as <-. exact Hpos.
  - injection H as <-. cbn [SpecFloat.valid_binary] in Hv.
    apply bounded_mantissa in Hv as [Hm He].
    pose proof (magnitude_bound m e Hm He).
    destruct s; lia.
Qed.

Lemma of_int_nearest (lo hi k : Z) :
  Z.abs lo < PyFloat.int_max -> Z.abs hi < PyFloat.int_max ->
  lo <= k <= hi ->
  PyFloat.of_int k = inr (PyFloat.nearest k).
Proof.
  intros Hlo Hhi Hk. unfold PyFloat.of_int.
  destruct (Z.ltb_spec (Z.abs k) PyFloat.int_max) as [_|Hge]; [reflexivity|].
  lia.
Qed.

(** A positive step is not a zero. *)
Lemma positive_not_zero (step : float) :
  (0 <? step)%float = true -> is_zero step = false.
Proof.
  unfold is_zero. rewrite FloatAxioms.ltb_spec, FloatAxioms.eqb_spec.
  change (Prim2SF 0) with (S754_zero false).
  change (Prim2SF zero) with (S754_zero false).
  destruct (Prim2SF step) as [s|s| |s m e]; simpl; try discriminate; try reflexivity.
  - destruct s; reflexivity.
  - destruct s; reflexivity.
Qed.

(** The comprehension of [float_range] over truncated quotients never
    raises: it is the list of the multiples. *)
Lemma float_range_quotients (start stop step : float) (lo hi : Z) :
  is_zero step = false ->
  PyFloat.int (start / step) = inr lo ->
  PyFloat.int (stop / step) = inr hi ->
  float_range start stop step
  = inr (map (fun k => (PyFloat.nearest k * step)%float) (range lo (hi + 1))).
Proof.
  intros Hz Hlo Hhi. unfold float_range, PyFloat.truediv.
  rewrite Hz. simpl. rewrite Hlo. simpl. rewrite Hhi. simpl.
  apply mapM_pure. intros k Hk. apply range_In in Hk.
  unfold PyFloat.rmul.
  rewrite (of_int_nearest lo hi k) by (eauto using int_bound; lia).
  reflexivity.
Qed.

(** [int] truncates toward zero, on both sides. *)
Example int_truncates :
  PyFloat.int 3.99 = inr 3 /\ PyFloat.int (-7.9) = inr (-7)
  /\ PyFloat.int (-0.5) = inr 0 /\ PyFloat.int (1 / 0.3) = inr 3
  /\ PyFloat.int infinity = inl OverflowError /\ PyFloat.int nan = inl ValueError.
Proof. repeat split; vm_compute; reflexivity. Qed.

(** The bound of [of_int] is where rounding to nearest leaves the
    doubles: the largest integer below it rounds to the largest
    double, the bound itself to infinity; and [2^53 + 1] is the first
    integer that is not a double (it rounds to the even neighbour). *)
Example of_int_boundary :
  PyFloat.of_int (PyFloat.int_max - 1) = inr 0x1.fffffffffffffp+1023%float
  /\ PyFloat.nearest PyFloat.int_max = infinity
  /\ PyFloat.of_int PyFloat.int_max = inl OverflowError
  /\ PyFloat.of_int (2 ^ 53 + 1) = inr 9007199254740992%float.
Proof. repeat split; vm_compute; reflexivity. Qed.

(** ** The Range Expander *)

(** [int] accepts every double that is a number. *)
Lemma int_accepts (x : float) :
  is_nan x = false -> is_infinity x = false -> exists z, PyFloat.int x = inr z.
Proof.
  unfold PyFloat.int, is_nan, is_infinity.
  rewrite !FloatAxioms.eqb_spec, abs_spec.
  change (Prim2SF infinity) with (S754_infinity false).
  destruct (Prim2SF x) as [s|s| |s m e]; simpl; intros Hn Hi;
    try discriminate; eauto.
Qed.

(** C10, as the claim states it, fails twice.  Not every positive
    step gives a sequence: at [(1e308, 1e308, 1e-308)] the quotients
    overflow and [int] raises.  And a start that is no integer
    multiple of the step can be the first element: three times the
    double 0.3 is no double, the double below it is
    0.8999999999999999, and [float_range(0.8999999999999999, 2, 0.3)]
    begins at this start. *)
Lemma float_range_not_for_every_step :
  (0 <? 1e-308)%float = true
  /\ float_range 1e308 1e308 1e-308 = inl OverflowError
  /\ (0 <? 0.3)%float = true
  /\ (forall k : Z, ~ spec_multiple k 0.8999999999999999 0.3)
  /\ float_range 0.8999999999999999 2 0.3
     = inr [0.8999999999999999; 1.2; 1.5; 1.7999999999999998]%float
  /\ hd_error [0.8999999999999999; 1.2; 1.5; 1.7999999999999998]%float
     = Some 0.8999999999999999%float.
Proof.
  split; [reflexivity|]. split; [vm_compute; reflexivity|].
  split; [reflexivity|]. split; [|split; [vm_compute; reflexivity | reflexivity]].
  intros k H. unfold spec_multiple in H.
  replace (spec_number 0.8999999999999999) with (Some (8106479329266892, -53)) in H
    by (vm_compute; reflexivity).
  replace (spec_number 0.3) with (Some (5404319552844595, -54)) in H
    by (vm_compute; reflexivity).
  change (-53 - Z.min (-53) (-54)) with 1 in H.
  change (-54 - Z.min (-53) (-54)) with 0 in H.
  change (2 ^ 1) with 2 in H. change (2 ^ 0) with 1 in H. lia.
Qed.

(** C10, amended.  For a positive step and quotients [start/step] and
    [stop/step] that are numbers (no NaN, no infinity), [int] accepts
    both quotients, and [float_range] returns the products [k * step]
    for the consecutive integers [k] from [int(start/step)] to
    [int(stop/step)], each [k] rounded to its nearest double and each
    product rounded in its turn; so the first element, when there is
    one, is [int(start/step) * step]. *)
Theorem float_range_multiples (start stop step : float) :
  (0 <? step)%float = true ->
  is_nan (start / step) = false -> is_infinity (start / step) = false ->
  is_nan (stop / step) = false -> is_infinity (stop / step) = false ->
  exists (lo hi : Z) (l : list float),
    PyFloat.int (start / step) = inr lo
    /\ PyFloat.int (stop / step) = inr hi
    /\ float_range start stop step = inr l
    /\ l = map (fun k => (SF2Prim (binary_normalize prec emax k 0 false) * step)%float)
             (range lo (hi + 1))
    /\ length l = Z.to_nat (hi + 1 - lo)
    /\ (lo <= hi ->
        hd_error l = Some (SF2Prim (binary_normalize prec emax lo 0 false) * step)%float).
Proof.
  intros Hstep Hn1 Hi1 Hn2 Hi2.
  pose proof (positive_not_zero step Hstep) as Hz.
  destruct (int_accepts _ Hn1 Hi1) as [lo Hlo].
  destruct (int_accepts _ Hn2 Hi2) as [hi Hhi].
  exists lo, hi. eexists.
  split; [exact Hlo|]. split; [exact Hhi|].
  split; [apply (float_range_quotients _ _ _ lo hi); assumption|].
  split; [reflexivity|].
  split; [rewrite length_map; apply range_length|].
  intros Hle. rewrite range_cons by lia. reflexivity.
Qed.

(** The example of C10: [float_range(0.5, 1.0, 0.3)] is made of the
    multiples 1, 2 and 3 of 0.3, and begins at 0.3, below [start]. *)
Lemma float_range_multiples_witness :
  (0 <? 0.3)%float = true
  /\ is_nan (0.5 / 0.3) = false /\ is_infinity (0.5 / 0.3) = false
  /\ is_nan (1 / 0.3) = false /\ is_infinity (1 / 0.3) = false
  /\ (exists (lo hi : Z) (l : list float),
        PyFloat.int (0.5 / 0.3) = inr lo
        /\ PyFloat.int (1 / 0.3) = inr hi
        /\ float_range 0.5 1 0.3 = inr l
        /\ l = map (fun k => (SF2Prim (binary_normalize prec emax k 0 false) * 0.3)%float)
                 (range lo (hi + 1))
        /\ length l = Z.to_nat (hi + 1 - lo)
        /\ (lo <= hi ->
            hd_error l
            = Some (SF2Prim (binary_normalize prec emax lo 0 false) * 0.3)%float))
  /\ PyFloat.int (0.5 / 0.3) = inr 1
  /\ PyFloat.int (1 / 0.3) = inr 3
  /\ float_range 0.5 1 0.3 = inr [0.3; 0.6; 0.8999999999999999]%float
  /\ (0.3 <? 0.5)%float = true.
Proof.
  refine (conj _ (conj _ (conj _ (conj _ (conj _
           (conj (float_range_multiples 0.5 1 0.3 _ _ _ _ _)
              (conj _ (conj _ (conj _ _)))))))));
    vm_compute; reflexivity.
Defined.

(** C1, at the input [(0.5, 1.0, 0.3)].  The code returns the three
    multiples 0.3, 0.6 and 3*0.3 of the step: it begins below [start];
    the range that the specification words has the two terms 0.5 and
    0.8. *)
Theorem float_range_starts_off_start :
  float_range 0.5 1 0.3 = inr [0.3; 0.6; 0.8999999999999999]%float
  /\ (0.3 <? 0.5)%float = true
  /\ spec_float_range 0.5 1 0.3 = inr [0.5; 0.8]%float.
Proof. repeat split; vm_compute; reflexivity. Qed.

(** C2, as the claim states it, fails at [(1, 0, 0.5)], where
    [start > stop], and at [(0, 1, -0.5)], where [step <= 0]: an empty
    sequence is returned and nothing is raised. *)
Lemma float_range_returns_on_invalid :
  (0 <? 1)%float = true /\ float_range 1 0 0.5 = inr []
  /\ (-0.5 <=? 0)%float = true /\ float_range 0 1 (-0.5) = inr []
  /\ ~ (exists e, float_range 1 0 0.5 = inl e).
Proof.
  repeat split; try (vm_compute; reflexivity).
  intros [e He]. vm_compute in He. discriminate.
Qed.

(** C2, amended.  No range is refused.  When [step <= 0] or
    [start > stop]: a zero step raises [ZeroDivisionError], from the
    division; any other step, with quotients that [int] accepts, gives
    the list of the multiples [k * step] for [k] from [int(start/step)]
    to [int(stop/step)], empty when the second is below the first. *)
Theorem float_range_unchecked (start stop step : float) :
  (step <=? 0)%float = true \/ (stop <? start)%float = true ->
  (is_zero step = true ->
   float_range start stop step = inl ZeroDivisionError)
  /\ (is_zero step = false ->
      forall lo hi : Z,
        PyFloat.int (start / step) = inr lo ->
        PyFloat.int (stop / step) = inr hi ->
        exists l : list float,
          float_range start stop step = inr l
          /\ l = map (fun k => (PyFloat.nearest k * step)%float) (range lo (hi + 1))
          /\ length l = Z.to_nat (hi + 1 - lo)).
Proof.
  intros _. split.
  - intros Hz. unfold float_range, PyFloat.truediv. rewrite Hz. reflexivity.
  - intros Hz lo hi Hlo Hhi. eexists.
    split; [apply (float_range_quotients _ _ _ lo hi); assumption|].
    split; [reflexivity|].
    rewrite length_map. apply range_length.
Qed.

(** The amended C2 at [(1, 0, 0)] and at [(1, 0, 0.5)]. *)
Lemma float_range_unchecked_witness :
  ((0 <=? 0)%float = true \/ (0 <? 1)%float = true)
  /\ float_range 1 0 0 = inl ZeroDivisionError
  /\ ((0.5 <=? 0)%float = true \/ (0 <? 1)%float = true)
  /\ exists l : list float,
      float_range 1 0 0.5 = inr l
      /\ l = map (fun k => (PyFloat.nearest k * 0.5)%float) (range 2 (0 + 1))
      /\ length l = Z.to_nat (0 + 1 - 2).
Proof.
  refine (conj (or_introl eq_refl) (conj _ (conj (or_intror eq_refl) _))).
  - exact (proj1 (float_range_unchecked 1 0 0 (or_introl eq_refl)) eq_refl).
  - exact (proj2 (float_range_unchecked 1 0 0.5 (or_intror eq_refl))
             eq_refl 2 0 eq_refl eq_refl).
Defined.

(** C9, as the claim states it, fails: the last value for
    [(0, 1, 0.3)] is not the double 0.9. *)
Lemma float_range_third_multiple_not_09 :
  ~ (float_range 0 1 0.25 = inr [0; 0.25; 0.5; 0.75; 1]%float
     /\ float_range 0 1 0.3 = inr [0; 0.3; 0.6; 0.9]%float).
Proof.
  intros [_ H].
  apply (f_equal (fun r : py (list float) =>
                    match r with
                    | inr l => Prim2SF (nth 3 l 0%float)
                    | inl _ => S754_nan
                    end)) in H.
  vm_compute in H. discriminate.
Qed.

(** C9, amended.  [(0, 1, 0.25)] gives exactly the five values 0,
    0.25, 0.5, 0.75 and 1; [(0, 1, 0.3)] gives exactly the four
    multiples 0, 0.3, 0.6 and 3*0.3, the last being the double
    0.8999999999999999 just below 0.9, and no 1. *)
Theorem float_range_examples :
  float_range 0 1 0.25 = inr [0; 0.25; 0.5; 0.75; 1]%float
  /\ float_range 0 1 0.3 = inr [0; 0.3; 0.6; 0.8999999999999999]%float
  /\ (PyFloat.nearest 3 * 0.3 = 0.8999999999999999)%float
  /\ next_up 0.8999999999999999 = 0.9%float
  /\ (0.8999999999999999 <? 1)%float = true.
Proof. repeat split; vm_compute; reflexivity. Qed.

(** ** The Parameter Space Builder *)

Section Product.

Context {A : Type}.

Lemma product_two (xs ys : list A) : product [xs; ys] = row_major xs ys.
Proof.
  unfold product, row_major. simpl. rewrite app_nil_r.
  induction xs as [|x xs IH]; simpl; [reflexivity|].
  rewrite IH. reflexivity.
Qed.

Lemma row_major_In (xs ys : list A) (t : list A) :
  In t (row_major xs ys) <-> exists x y, t = [x; y] /\ In x xs /\ In y ys.
Proof.
  unfold row_major. rewrite in_flat_map. split.
  - intros (x & Hx & Ht). apply in_map_iff in Ht as (y & <- & Hy).
    exists x, y. auto.
  - intros (x & y & -> & Hx & Hy). exists x. split; [assumption|].
    apply in_map_iff. exists y. auto.
Qed.

Lemma row_major_length (xs ys : list A) :
  length (row_major xs ys) = (length xs * length ys)%nat.
Proof.
  unfold row_major. induction xs as [|x xs IH]; simpl; [reflexivity|].
  rewrite length_app, length_map, IH. reflexivity.
Qed.

Lemma row_of_NoDup (x : A) (ys : list A) :
  NoDup ys -> NoDup (map (fun y => [x; y]) ys).
Proof.
  induction 1 as [|y ys Hy Hys IH]; simpl; constructor; [|assumption].
  rewrite in_map_iff. intros (y' & E & Hy'). injection E as ->. contradiction.
Qed.

Lemma row_major_NoDup (xs ys : list A) :
  NoDup xs -> NoDup ys -> NoDup (row_major xs ys).
Proof.
  intros Hxs Hys. unfold row_major.
  induction Hxs as [|x xs Hx Hxs IH]; simpl; [constructor|].
  apply NoDup_app; [apply row_of_NoDup; assumption | assumption |].
  intros t Ht Ht'. apply in_map_iff in Ht as (y & <- & Hy).
  apply (row_major_In xs ys) in Ht' as (x' & y' & E & Hx' & _).
  injection E as -> _. contradiction.
Qed.

(** In a list without repetition, a member has exactly one place. *)
Lemma NoDup_In_once (l : list A) (a : A) :
  NoDup l -> In a l ->
  exists i, nth_error l i = Some a /\ forall j, nth_error l j = Some a -> j = i.
Proof.
  intros Hl Ha. destruct (In_nth_error l a Ha) as [i Hi].
  exists i. split; [assumption|]. intros j Hj.
  apply (proj1 (NoDup_nth_error l) Hl).
  - apply nth_error_Some. rewrite Hj. discriminate.
  - rewrite Hi, Hj. reflexivity.
Qed.

End Product.

(** The space of two axes is the product of their expansions. *)
Lemma yield_parameter_space_two (n1 n2 : string)
  (start1 stop1 step1 start2 stop2 step2 : float) (xs ys : list float) :
  float_range start1 stop1 step1 = inr xs ->
  float_range start2 stop2 step2 = inr ys ->
  yield_parameter_space [(n1, (start1, stop1, step1)); (n2, (start2, stop2, step2))]
  = inr (row_major xs ys).
Proof.
  intros H1 H2. unfold yield_parameter_space. simpl.
  rewrite H1. simpl. rewrite H2. simpl. unfold ret. f_equal.
  apply product_two.
Qed.

(** C3, as the claim states it, fails for the axis
    [(2^53, 2^53 + 2, 1)]: its expansion has three values, the integer
    [2^53 + 1] among them rounds to the double [2^53], and the nine
    tuples of two such axes repeat. *)
Lemma parameter_space_repeats :
  exists (xs : list float) (l : list (list float)),
    float_range 9007199254740992 9007199254740994 1 = inr xs
    /\ length xs = 3%nat
    /\ yield_parameter_space
         [("a"%string, (9007199254740992, 9007199254740994, 1)%float);
          ("b"%string, (9007199254740992, 9007199254740994, 1)%float)] = inr l
    /\ length l = 9%nat
    /\ ~ NoDup l.
Proof.
  eexists. eexists.
  split; [vm_compute; reflexivity|].
  split; [reflexivity|].
  split; [vm_compute; reflexivity|].
  split; [reflexivity|].
  intros H. apply NoDup_cons_iff in H as [Hnin _].
  apply Hnin. left. reflexivity.
Qed.

(** C3, amended.  For two axes whose expansions each have three
    pairwise different values, the builder gives nine pairwise
    different tuples; each is a pair of a value of the first axis and a
    value of the second, every such pair has exactly one place, and the
    second axis varies fastest. *)
Theorem parameter_space_3x3 (n1 n2 : string)
  (start1 stop1 step1 start2 stop2 step2 : float) (xs ys : list float) :
  float_range start1 stop1 step1 = inr xs ->
  float_range start2 stop2 step2 = inr ys ->
  length xs = 3%nat -> length ys = 3%nat ->
  NoDup xs -> NoDup ys ->
  exists l : list (list float),
    yield_parameter_space
      [(n1, (start1, stop1, step1)); (n2, (start2, stop2, step2))] = inr l
    /\ length l = 9%nat
    /\ NoDup l
    /\ (forall t, In t l -> exists x y, t = [x; y] /\ In x xs /\ In y ys)
    /\ (forall x y, In x xs -> In y ys ->
        exists i, nth_error l i = Some [x; y]
                  /\ forall j, nth_error l j = Some [x; y] -> j = i)
    /\ (forall x0 x1 x2 y0 y1 y2,
        xs = [x0; x1; x2] -> ys = [y0; y1; y2] ->
        l = [[x0; y0]; [x0; y1]; [x0; y2];
             [x1; y0]; [x1; y1]; [x1; y2];
             [x2; y0]; [x2; y1]; [x2; y2]]).
Proof.
  intros H1 H2 Lx Ly Nx Ny. exists (row_major xs ys).
  split; [apply yield_parameter_space_two; assumption|].
  split; [rewrite row_major_length, Lx, Ly; reflexivity|].
  pose proof (row_major_NoDup xs ys Nx Ny) as Nl.
  split; [assumption|].
  split; [intros t Ht; apply row_major_In; assumption|].
  split.
  - intros x y Hx Hy. apply NoDup_In_once; [assumption|].
    apply row_major_In. exists x, y. auto.
  - intros x0 x1 x2 y0 y1 y2 -> ->. reflexivity.
Qed.

Lemma NoDup_three {A} (a b c : A) :
  a <> b -> a <> c -> b <> c -> NoDup [a; b; c].
Proof.
  intros Hab Hac Hbc.
  constructor; [simpl; intros [E|[E|[]]]; auto|].
  constructor; [simpl; intros [E|[]]; auto|].
  constructor; [simpl; tauto | constructor].
Qed.

(** The amended C3 for the axes [(0, 2, 1)] and [(0, 1, 0.5)]. *)
Lemma parameter_space_3x3_witness :
  float_range 0 2 1 = inr [0; 1; 2]%float
  /\ float_range 0 1 0.5 = inr [0; 0.5; 1]%float
  /\ NoDup [0; 1; 2]%float
  /\ NoDup [0; 0.5; 1]%float
  /\ exists l : list (list float),
      yield_parameter_space
        [("a"%string, (0, 2, 1)%float); ("b"%string, (0, 1, 0.5)%float)] = inr l
      /\ length l = 9%nat
      /\ NoDup l
      /\ (forall t, In t l ->
          exists x y, t = [x; y] /\ In x [0; 1; 2]%float /\ In y [0; 0.5; 1]%float)
      /\ (forall x y, In x [0; 1; 2]%float -> In y [0; 0.5; 1]%float ->
          exists i, nth_error l i = Some [x; y]
                    /\ forall j, nth_error l j = Some [x; y] -> j = i)
      /\ (forall x0 x1 x2 y0 y1 y2,
          [0; 1; 2]%float = [x0; x1; x2] -> [0; 0.5; 1]%float = [y0; y1; y2] ->
          l = [[x0; y0]; [x0; y1]; [x0; y2];
               [x1; y0]; [x1; y1]; [x1; y2];
               [x2; y0]; [x2; y1]; [x2; y2]]).
Proof.
  assert (N1 : NoDup [0; 1; 2]%float) by (apply NoDup_three; float_differ).
  assert (N2 : NoDup [0; 0.5; 1]%float) by (apply NoDup_three; float_differ).
  refine (conj eq_refl (conj eq_refl (conj N1 (conj N2 _)))).
  exact (parameter_space_3x3 "a" "b" 0 2 1 0 1 0.5 [0; 1; 2]%float [0; 0.5; 1]%float
           eq_refl eq_refl eq_refl eq_refl N1 N2).
Defined.

(** ** The Result Sink *)

Section Sink.

Variable fmt6 : float -> string.

(** A write that the stream takes puts the line at the end of the
    buffer, and [save] returns [None]. *)
Lemma save_accepted (state : list float) (result : float) (w : world) :
  save fmt6 None state result w
  = ({| stdout := stdout w;
        out_swp := out_swp w;
        fp_buffer := fp_buffer w ++ [record_line fmt6 state result];
        exe := exe w; thread_pool := thread_pool w |}, inr None).
Proof. reflexivity. Qed.

(** A write that the stream refuses leaves the process as it was,
    and [save] raises: the exception itself when it is no [IOError],
    and otherwise an [AttributeError], since an [IOError] has no
    [msg]. *)
Lemma save_refused (e : exn) (state : list float) (result : float) (w : world) :
  save fmt6 (Some e) state result w
  = (w, inl (if is_IOError e then AttributeError "OSError" "msg" else e)).
Proof. destruct e; reflexivity. Qed.

(** C5, at any write that the stream refuses with an [IOError]: [save]
    raises [AttributeError] at [e.msg]; it prints nothing and returns
    no status; the write is not tried again and nothing else is
    touched. *)
Theorem save_io_failure (errno : Z) (strerror : string)
  (state : list float) (result : float) (w : world) :
  save fmt6 (Some (OSError errno strerror)) state result w
  = (w, inl (AttributeError "OSError" "msg"))
  /\ snd (save fmt6 (Some (OSError errno strerror)) state result w)
     <> inr (Some WRITE_IN_THREAD_FAILED)
  /\ ~ In (Str "Thread failed to write... ")
          (skipn (length (stdout w))
             (stdout (fst (save fmt6 (Some (OSError errno strerror)) state result w)))).
Proof.
  rewrite save_refused. simpl. split; [reflexivity|]. split; [discriminate|].
  rewrite skipn_all. simpl. tauto.
Qed.

End Sink.

(** ** The two pools *)

Section Pools.

Variable fmt6 : float -> string.
Variable target : list float -> outcome.

Lemma lines_of_calls_app (l1 l2 : list (list float)) :
  lines_of_calls fmt6 target (l1 ++ l2)
  = lines_of_calls fmt6 target l1 ++ lines_of_calls fmt6 target l2.
Proof. apply flat_map_app. Qed.

Lemma lines_of_tasks_app (l1 l2 : list (list float * float)) :
  lines_of_tasks fmt6 (l1 ++ l2) = lines_of_tasks fmt6 l1 ++ lines_of_tasks fmt6 l2.
Proof. apply map_app. Qed.

(** What the callback of a call leaves, by how the call ended. *)
Lemma invoke_save_on_complete (future : outcome) (state : list float) (w : world) :
  invoke_callbacks (save_on_complete future state) w
  = match future with
    | Returned result => fst (thread_pool_submit state result w)
    | Raised e => if is_Exception e then w else exe_abandon w
    end.
Proof. destruct future; reflexivity. Qed.

(** No step submits a call. *)
Lemma step_exe (w w' : world) (ev : event) :
  step fmt6 target w ev w' -> incl (exe w') (exe w).
Proof.
  intros Hstep.
  destruct Hstep as [w l1 state l2 Hexe | w l1 state result l2 fault Htp | w Hb | w Hb].
  - assert (H : incl (l1 ++ l2) (exe w)).
    { rewrite Hexe. intros s Hs.
      apply in_app_or in Hs as [Hs|Hs]; apply in_or_app; [left|right; right]; assumption. }
    rewrite invoke_save_on_complete.
    destruct (target state) as [result|e]; [exact H|].
    destruct (is_Exception e); [exact H|]. intros s [].
  - destruct fault as [e|].
    + rewrite save_refused. apply incl_refl.
    + rewrite save_accepted. apply incl_refl.
  - apply incl_refl.
  - apply incl_refl.
Qed.

Lemma step_survives (w w' : world) (ev : event) :
  step fmt6 target w ev w' -> survives target (exe w) -> survives target (exe w').
Proof.
  intros Hstep Hs. unfold survives in *. rewrite Forall_forall in *.
  intros s Hin. apply Hs. apply (step_exe _ _ _ Hstep). assumption.
Qed.

(** A step in which the stream refuses nothing and the manager thread
    lives loses no line and makes none up. *)
Lemma step_owed (w w' : world) (ev : event) :
  step fmt6 target w ev w' -> ~ write_failed ev -> survives target (exe w) ->
  Permutation (owed fmt6 target w') (owed fmt6 target w).
Proof.
  intros Hstep Hok Hs.
  destruct Hstep as [w l1 state l2 Hexe | w l1 state result l2 fault Htp | w Hb | w Hb].
  - rewrite invoke_save_on_complete. unfold owed.
    rewrite Hexe, lines_of_calls_app. simpl.
    destruct (target state) as [result|e] eqn:Ht; simpl.
    + rewrite lines_of_tasks_app, lines_of_calls_app. simpl.
      apply Permutation_app_head. apply Permutation_app_head. rewrite <- app_assoc.
      apply Permutation_app_head. simpl. apply Permutation_middle.
    + assert (He : is_Exception e = true).
      { unfold survives in Hs. rewrite Forall_forall in Hs.
        specialize (Hs state). rewrite Hexe, Ht in Hs. simpl in Hs.
        apply negb_false_iff. apply Hs. apply in_elt. }
      rewrite He. simpl. rewrite lines_of_calls_app. reflexivity.
  - destruct fault as [e|]; [exfalso; apply Hok; exact I|].
    rewrite save_accepted. unfold owed. simpl.
    rewrite Htp, !lines_of_tasks_app. simpl.
    apply Permutation_app_head. rewrite <- !app_assoc. apply Permutation_app_head.
    simpl. apply Permutation_middle.
  - unfold owed. simpl. rewrite <- app_assoc. reflexivity.
  - exfalso; apply Hok; exact I.
Qed.

Lemma run_survives (w w' : world) (evs : list event) :
  run fmt6 target w evs w' -> survives target (exe w) -> survives target (exe w').
Proof.
  induction 1 as [w|w ev w1 evs w2 Hstep Hrun IH]; intros Hs; [assumption|].
  apply IH. apply (step_survives _ _ _ Hstep). assumption.
Qed.

Lemma run_owed (w w' : world) (evs : list event) :
  run fmt6 target w evs w' -> Forall (fun ev => ~ write_failed ev) evs ->
  survives target (exe w) ->
  Permutation (owed fmt6 target w') (owed fmt6 target w).
Proof.
  induction 1 as [w|w ev w1 evs w2 Hstep Hrun IH]; intros Hok Hs.
  - reflexivity.
  - inversion Hok as [|? ? Hev Hevs]; subst.
    rewrite IH; [|assumption|apply (step_survives _ _ _ Hstep); assumption].
    apply (step_owed _ _ ev); assumption.
Qed.

(** When both pools are drained, every owed line is in the file or in
    the buffer. *)
Lemma drained_owed (w : world) :
  drained w -> owed fmt6 target w = out_swp w ++ fp_buffer w.
Proof.
  intros [He Ht]. unfold owed. rewrite He, Ht. simpl. rewrite app_nil_r. reflexivity.
Qed.



(** The pools do not close the file. *)
Lemma run_not_closed (w w' : world) (evs : list event) :
  run fmt6 target w evs w' -> forall e lines, ~ In (CloseFailed e lines) evs.
Proof.
  intros Hrun e lines.
  induction Hrun as [w|w ev w1 evs w2 Hstep Hrun IH]; [intros []|].
  intros [->|Hin]; [inversion Hstep | exact (IH Hin)].
Qed.

(** The pools always drain: the scheduler [fifo] is one way. *)
Lemma fifo_saves_run (faults : list float -> float -> option exn)
  (tasks : list (list float * float)) (w : world) :
  thread_pool w = tasks -> exe w = [] ->
  run fmt6 target w (fst (fifo_saves fmt6 faults tasks w))
      (snd (fifo_saves fmt6 faults tasks w))
  /\ drained (snd (fifo_saves fmt6 faults tasks w)).
Proof.
  revert w. induction tasks as [|[state result] rest IH]; intros w Htp Hexe; simpl.
  - split; [constructor | split; assumption].
  - set (r := save fmt6 (faults state result) state result (thread_pool_take [] rest w)).
    assert (Hr : thread_pool (fst r) = rest /\ exe (fst r) = []).
    { subst r. destruct (faults state result) as [e|].
      - rewrite save_refused. simpl. auto.
      - rewrite save_accepted. simpl. auto. }
    destruct Hr as [Hr1 Hr2]. specialize (IH (fst r) Hr1 Hr2).
    destruct (fifo_saves fmt6 faults rest (fst r)) as [evs w'] eqn:Hf. simpl in *.
    destruct IH as [IH1 IH2]. split; [|assumption].
    eapply run_step; [|exact IH1].
    subst r. apply (step_save fmt6 target w [] state result rest). assumption.
Qed.

Lemma fifo_calls_run (faults : list float -> float -> option exn)
  (calls : list (list float)) (w : world) :
  exe w = calls ->
  run fmt6 target w (fst (fifo_calls fmt6 faults target calls w))
      (snd (fifo_calls fmt6 faults target calls w))
  /\ drained (snd (fifo_calls fmt6 faults target calls w)).
Proof.
  revert w. induction calls as [|state rest IH]; intros w Hexe; simpl.
  - apply fifo_saves_run; [reflexivity | assumption].
  - set (w1 := invoke_callbacks (save_on_complete (target state) state)
                                (exe_take [] rest w)).
    assert (Hstep : step fmt6 target w (Completed state (target state)) w1).
    { subst w1. apply (step_complete fmt6 target w [] state rest). assumption. }
    assert (H1 : exe w1 = if fatal (target state) then [] else rest).
    { subst w1. rewrite invoke_save_on_complete.
      destruct (target state) as [r|e]; [reflexivity|].
      simpl. destruct (is_Exception e); reflexivity. }
    destruct (fatal (target state)).
    + destruct (fifo_saves_run faults (thread_pool w1) w1 eq_refl H1) as [R1 R2].
      destruct (fifo_saves fmt6 faults (thread_pool w1) w1) as [evs w'] eqn:Hf.
      simpl in *. split; [|assumption].
      eapply run_step; [exact Hstep | exact R1].
    + specialize (IH w1 H1).
      destruct (fifo_calls fmt6 faults target rest w1) as [evs w'] eqn:Hf. simpl in *.
      destruct IH as [IH1 IH2]. split; [|assumption].
      eapply run_step; [exact Hstep | exact IH1].
Qed.

Lemma fifo_run (faults : list float -> float -> option exn) (w : world) :
  run fmt6 target w (fst (fifo fmt6 faults target w)) (snd (fifo fmt6 faults target w))
  /\ drained (snd (fifo fmt6 faults target w)).
Proof. apply fifo_calls_run. reflexivity. Qed.

End Pools.

(** ** The Study Orchestrator *)

Lemma for_each_submit (space : list (list float)) (w : world) :
  for_each exe_submit space w
  = ({| stdout := stdout w; out_swp := out_swp w; fp_buffer := fp_buffer w;
        exe := exe w ++ space; thread_pool := thread_pool w |}, inr tt).
Proof.
  revert w. induction space as [|s space IH]; intros w; simpl.
  - unfold io_ret, ret. rewrite app_nil_r. destruct w; reflexivity.
  - unfold io_bind, exe_submit. simpl. rewrite IH. simpl.
    rewrite <- app_assoc. reflexivity.
Qed.

(** When [main] reaches the pools, every step before has succeeded:
    the tuples of the space are submitted, and no line is written. *)
Lemma main_dispatch_study (env : environment) (script : string) (w : world) (d : dispatch) :
  main_dispatch env script world0 = (w, inr (inr d)) ->
  exists m a parsed args cores space,
    import_module env script = inr m
    /\ mod_main m = Some a
    /\ make_parser_for_main m = inr parsed
    /\ parse_known_args (fst parsed) (argv env) = inr args
    /\ cores_of (cpu_count env) = inr cores
    /\ ProcessPoolExecutor cores = inr (max_workers d)
    /\ yield_parameter_space args = inr space
    /\ target d = call_attribute a
    /\ exe w = space /\ out_swp w = [] /\ thread_pool w = [] /\ fp_buffer w = [].
Proof.
  unfold main_dispatch, io_bind, try_except, lift, io_ret, ret.
  destruct (import_module env script) as [e|m] eqn:Himp; cbv beta iota.
  - destruct e; discriminate.
  - destruct (mod_main m) as [a|] eqn:Hmain; cbv beta iota; [|discriminate].
    destruct (make_parser_for_main m) as [e|parsed] eqn:Hparse;
      cbv beta iota; [discriminate|].
    destruct (parse_known_args (fst parsed) (argv env)) as [e|args] eqn:Hargs;
      cbv beta iota; [discriminate|].
    destruct (swap_exists env); unfold print; cbv beta iota;
      (destruct (cores_of (cpu_count env)) as [e|cores] eqn:Hcores;
       cbv beta iota; [discriminate|]);
      (destruct (ProcessPoolExecutor cores) as [e|workers] eqn:Hpool;
       cbv beta iota; [discriminate|]);
      (destruct (yield_parameter_space args) as [e|space] eqn:Hspace;
       cbv beta iota; [discriminate|]);
      rewrite for_each_submit; cbn; intros H; injection H as <- <-;
      exists m, a, parsed, args, cores, space; repeat split; assumption.
Qed.

(** A module without [main] stops [main] at [EXIT.NO_MAIN]. *)
Lemma main_dispatch_no_main (env : environment) (script : string) (m : module) :
  import_module env script = inr m -> mod_main m = None ->
  main_dispatch env script world0
  = ({| stdout := [Str ("no main function found in " ++ mod_name m)];
        out_swp := []; fp_buffer := []; exe := []; thread_pool := [] |},
     inl (AttributeError "EXIT" "NO_MAIN")).
Proof.
  intros Himp Hmain.
  unfold main_dispatch, io_bind, try_except, lift, io_ret, ret.
  rewrite Himp. cbv beta iota. rewrite Hmain. reflexivity.
Qed.

Section Orchestrator.

Variable fmt6 : float -> string.

(** How [main] ends once both pools are shut down: the close flushes
    the buffer and [main] returns [EXIT.OK], or the device refuses and
    [main] raises what [fp.close()] raises. *)
Lemma main_finish_cases (fault : option exn) (w : world) :
  (Forall (fun ev => ~ write_failed ev) (close_events fault w)
   /\ snd (main_finish fault w) = inr OK
   /\ out_swp (fst (main_finish fault w)) = out_swp w ++ fp_buffer w
   /\ stdout (fst (main_finish fault w))
      = stdout w ++ [Str "All tasks done, file closed succesfully"])
  \/ (exists e, close_events fault w = [CloseFailed e (fp_buffer w)]
      /\ fault = Some e /\ fp_buffer w <> []
      /\ main_finish fault w = (fp_lose w, inl e)).
Proof.
  unfold main_finish, close_events, io_bind, fp_close.
  destruct (fp_buffer w) as [|line buf] eqn:Hb.
  - left. simpl. rewrite app_nil_r. repeat split. constructor.
  - destruct fault as [e|].
    + right. exists e. repeat split. discriminate.
    + left. simpl. rewrite Hb. repeat split.
      constructor; [intros H; exact H | constructor].
Qed.

(** A run of [main] that reaches the pools is a drained run of the
    pools, followed by the close. *)
Lemma main_run (env : environment) (script : string) (w0 : world)
  (d : dispatch) (evs : list event) (w : world) (r : py EXIT) :
  main_dispatch env script world0 = (w0, inr (inr d)) ->
  main fmt6 env script evs w r ->
  exists evs' w' fault,
    run fmt6 (target d) w0 evs' w' /\ drained w'
    /\ evs = evs' ++ close_events fault w'
    /\ w = fst (main_finish fault w') /\ r = snd (main_finish fault w').
Proof.
  intros Hd Hmain.
  destruct Hmain as [w1 e1 Hd1 | w1 status Hd1 | w1 d1 evs w' fault Hd1 Hrun Hdrained];
    rewrite Hd in Hd1; try discriminate.
  injection Hd1 as E1 E2. subst w1 d1.
  exists evs, w', fault.
  exact (conj Hrun (conj Hdrained (conj eq_refl (conj eq_refl eq_refl)))).
Qed.

(** [main] under [fifo] is a run of [main]. *)
Lemma main_fifo (faults : list float -> float -> option exn) (fault : option exn)
  (env : environment) (script : string) :
  main fmt6 env script
    (fst (fst (main_under_fifo fmt6 faults fault env script)))
    (snd (fst (main_under_fifo fmt6 faults fault env script)))
    (snd (main_under_fifo fmt6 faults fault env script)).
Proof.
  unfold main_under_fifo.
  destruct (main_dispatch env script world0) as [w [e|[status|d]]] eqn:Hd.
  - apply main_raises. assumption.
  - apply main_early. assumption.
  - destruct (fifo_run fmt6 (target d) faults w) as [Hrun Hdrained].
    destruct (fifo fmt6 faults (target d) w) as [evs w'].
    exact (main_study fmt6 env script w d _ _ fault Hd Hrun Hdrained).
Qed.

(** [main] returns or raises in every environment. *)
Lemma main_total (env : environment) (script : string) :
  exists evs w r, main fmt6 env script evs w r.
Proof.
  eexists. eexists. eexists. apply (main_fifo (fun _ _ => None) None).
Qed.


(** When the stream refuses nothing and the manager thread lives,
    [main] returns [EXIT.OK] and the file holds, in some order, the
    lines of the calls that returned. *)
Lemma main_undisturbed (env : environment) (script : string) (w0 : world)
  (d : dispatch) (evs : list event) (w : world) (r : py EXIT) :
  main_dispatch env script world0 = (w0, inr (inr d)) ->
  main fmt6 env script evs w r ->
  survives (target d) (exe w0) ->
  Forall (fun ev => ~ write_failed ev) evs ->
  r = inr OK
  /\ Permutation (out_swp w) (lines_of_calls fmt6 (target d) (exe w0)).
Proof.
  intros Hd Hmain Hs Hok.
  destruct (main_dispatch_study _ _ _ _ Hd)
    as (m & a & parsed & args & cores & space
        & _ & _ & _ & _ & _ & _ & _ & _ & _ & Hout & Htp & Hbuf).
  destruct (main_run _ _ _ _ _ _ _ Hd Hmain)
    as (evs' & w' & fault & Hrun & Hdrained & -> & -> & ->).
  apply Forall_app in Hok as [Hok1 Hok2].
  destruct (main_finish_cases fault w')
    as [(_ & Hr & Hfile & _) | (e & Hce & _ & _ & _)].
  - split; [assumption|]. rewrite Hfile.
    rewrite <- (drained_owed fmt6 (target d) w' Hdrained).
    rewrite (run_owed _ _ _ _ _ Hrun Hok1 Hs).
    unfold owed. rewrite Hout, Htp, Hbuf. reflexivity.
  - rewrite Hce in Hok2. inversion Hok2 as [|? ? H]. exfalso. apply H. exact I.
Qed.


(** C6, in every run of [main] in which the output stream refused a
    write, a flush or the close: [main] does not return
    [EXIT.WRITE_IN_THREAD_FAILED].  When it is the close that was
    refused, [main] raises what [fp.close()] raised; otherwise, the
    manager thread living, [main] returns [EXIT.OK] and the process
    ends with status 0. *)
Theorem main_ignores_write_failure (env : environment) (script : string)
  (evs : list event) (w : world) (r : py EXIT) :
  main fmt6 env script evs w r ->
  Exists write_failed evs ->
  r <> inr WRITE_IN_THREAD_FAILED
  /\ (forall e lines, In (CloseFailed e lines) evs -> r = inl e)
  /\ ((forall e lines, ~ In (CloseFailed e lines) evs) ->
      Forall (fun ev => ~ died ev) evs ->
      r = inr OK /\ exit_status r = 0).
Proof.
  intros Hmain Hfailed.
  destruct Hmain as [w1 e1 Hd1 | w1 status Hd1 | w1 d1 evs w' fault Hd1 Hrun Hdrained].
  - apply Exists_nil in Hfailed. destruct Hfailed.
  - apply Exists_nil in Hfailed. destruct Hfailed.
  - pose proof (run_not_closed _ _ _ _ _ Hrun) as Hpools.
    destruct (main_finish_cases fault w')
      as [(Hce & Hr & _ & _) | (e & Hce & _ & _ & Hr)].
    + rewrite Hr. split; [discriminate|]. split; [|intros _ _; split; reflexivity].
      intros e lines Hin. exfalso.
      apply in_app_or in Hin as [Hin|Hin]; [exact (Hpools _ _ Hin)|].
      rewrite Forall_forall in Hce. exact (Hce _ Hin I).
    + rewrite Hr, Hce. simpl. split; [discriminate|]. split.
      * intros e' lines Hin.
        apply in_app_or in Hin as [Hin|[Hin|[]]]; [destruct (Hpools _ _ Hin)|].
        injection Hin as <- _. reflexivity.
      * intros Hnone _. exfalso. apply (Hnone e (fp_buffer w')).
        apply in_or_app. right. left. reflexivity.
Qed.

(** C7, for every module without [main]: [main] has printed its
    message and then raises [AttributeError], as [EXIT] has no member
    [NO_MAIN]; no tuple is submitted, and the process ends with status
    1, not with the status 2 of [NO_MAIN_IN_MODULE]. *)
Theorem main_no_entry_point (env : environment) (script : string) (m : module)
  (evs : list event) (w : world) (r : py EXIT) :
  import_module env script = inr m ->
  mod_main m = None ->
  main fmt6 env script evs w r ->
  r = inl (AttributeError "EXIT" "NO_MAIN")
  /\ r <> inr NO_MAIN_IN_MODULE
  /\ exit_status r = 1
  /\ EXIT_value NO_MAIN_IN_MODULE = 2
  /\ evs = [] /\ exe w = [] /\ out_swp w = [].
Proof.
  intros Himp Hmain Hrun.
  pose proof (main_dispatch_no_main env script m Himp Hmain) as Hd.
  destruct Hrun as [w1 e1 Hd1 | w1 status Hd1 | w1 d1 evs w' fault Hd1 Hrun Hdrained];
    rewrite Hd in Hd1; try discriminate.
  injection Hd1 as <- <-. repeat split. discriminate.
Qed.

End Orchestrator.

(** C8, as the claim states it, fails on a machine of one unit: the
    worker count is 0, which is below 1 (and the process pool refuses
    it). *)
Lemma cores_of_single_unit :
  cores_of (Some 1) = inr 0
  /\ ProcessPoolExecutor 0 = inl ValueError
  /\ ~ (exists c, cores_of (Some 1) = inr c /\ c = 1 - 1 /\ 1 <= c).
Proof.
  repeat split. intros (c & _ & -> & H). lia.
Qed.

(** C8, amended.  On a machine of [n >= 2] units the worker count is
    [n - 1], at least 1, and this is the size of the process pool that
    [main] starts. *)
Theorem cores_of_units (n : Z) :
  2 <= n ->
  cores_of (Some n) = inr (n - 1)
  /\ 1 <= n - 1
  /\ ProcessPoolExecutor (n - 1) = inr (n - 1)
  /\ (forall env script w d,
      cpu_count env = Some n ->
      main_dispatch env script world0 = (w, inr (inr d)) ->
      max_workers d = n - 1).
Proof.
  intros Hn.
  assert (Hpool : ProcessPoolExecutor (n - 1) = inr (n - 1)).
  { unfold ProcessPoolExecutor. destruct (Z.leb_spec (n - 1) 0); [lia | reflexivity]. }
  repeat split; [lia | assumption |].
  intros env script w d Hcpu Hd.
  destruct (main_dispatch_study _ _ _ _ Hd)
    as (m & a & parsed & args & cores & space
        & _ & _ & _ & _ & Hcores & Hworkers & _).
  rewrite Hcpu in Hcores. injection Hcores as <-.
  rewrite Hpool in Hworkers. injection Hworkers as <-. reflexivity.
Qed.

(** ** The examples *)

(** The end-to-end scenario: [f(a) = a*2] over [a: (0, 2, 1)] on four
    units, the stream refusing nothing. *)
Example doubling_study :
  main_dispatch Example.doubling "script" world0
  = ({| stdout := [Str "starting task submission"]; out_swp := []; fp_buffer := [];
        exe := [[0]; [1]; [2]]%float; thread_pool := [] |},
     inr (inr {| target := Example.double; max_workers := 3 |}))
  /\ out_swp (snd (fst Example.doubling_run))
     = [ "0.0 0.0" ++ newline; "1.0 2.0" ++ newline; "2.0 4.0" ++ newline ]%string
  /\ snd Example.doubling_run = inr OK.
Proof. repeat split; reflexivity. Qed.



(** C6 on a full device: the three writes are taken into the buffer,
    the flush of [fp.close()] is refused, and [main] raises the
    [OSError]; the process ends with status 1 and an empty file. *)
Lemma main_ignores_write_failure_witness :
  main Example.fmt Example.doubling "script"
    (fst (fst Example.doubling_on_full_device))
    (snd (fst Example.doubling_on_full_device))
    (snd Example.doubling_on_full_device)
  /\ Exists write_failed (fst (fst Example.doubling_on_full_device))
  /\ (snd Example.doubling_on_full_device <> inr WRITE_IN_THREAD_FAILED
      /\ (forall e lines,
          In (CloseFailed e lines) (fst (fst Example.doubling_on_full_device)) ->
          snd Example.doubling_on_full_device = inl e)
      /\ ((forall e lines,
           ~ In (CloseFailed e lines) (fst (fst Example.doubling_on_full_device))) ->
          Forall (fun ev => ~ died ev) (fst (fst Example.doubling_on_full_device)) ->
          snd Example.doubling_on_full_device = inr OK
          /\ exit_status (snd Example.doubling_on_full_device) = 0))
  /\ snd Example.doubling_on_full_device = inl Example.device_full
  /\ exit_status (snd Example.doubling_on_full_device) = 1
  /\ EXIT_value WRITE_IN_THREAD_FAILED = 7
  /\ out_swp (snd (fst Example.doubling_on_full_device)) = [].
Proof.
  assert (Hmain : main Example.fmt Example.doubling "script"
                    (fst (fst Example.doubling_on_full_device))
                    (snd (fst Example.doubling_on_full_device))
                    (snd Example.doubling_on_full_device))
    by exact (main_fifo Example.fmt Example.no_fault (Some Example.device_full)
                Example.doubling "script").
  assert (Hfailed : Exists write_failed (fst (fst Example.doubling_on_full_device)))
    by (vm_compute; do 6 apply Exists_cons_tl; apply Exists_cons_hd; exact I).
  refine (conj Hmain (conj Hfailed (conj _ (conj eq_refl (conj eq_refl
           (conj eq_refl eq_refl)))))).
  exact (main_ignores_write_failure Example.fmt Example.doubling "script" _ _ _
           Hmain Hfailed).
Defined.

(** C7 for the module [empty], which has no [main]. *)
Lemma main_no_entry_point_witness :
  import_module (Example.env Example.empty_script 4) "empty" = inr Example.empty_script
  /\ mod_main Example.empty_script = None
  /\ main Example.fmt (Example.env Example.empty_script 4) "empty" []
       {| stdout := [Str "no main function found in empty"];
          out_swp := []; fp_buffer := []; exe := []; thread_pool := [] |}
       (inl (AttributeError "EXIT" "NO_MAIN"))
  /\ (@inl exn EXIT (AttributeError "EXIT" "NO_MAIN") = inl (AttributeError "EXIT" "NO_MAIN")
      /\ inl (AttributeError "EXIT" "NO_MAIN") <> @inr exn EXIT NO_MAIN_IN_MODULE
      /\ exit_status (inl (AttributeError "EXIT" "NO_MAIN")) = 1
      /\ EXIT_value NO_MAIN_IN_MODULE = 2
      /\ @nil event = []
      /\ exe {| stdout := [Str "no main function found in empty"];
                out_swp := []; fp_buffer := []; exe := []; thread_pool := [] |} = []
      /\ out_swp {| stdout := [Str "no main function found in empty"];
                    out_swp := []; fp_buffer := []; exe := []; thread_pool := [] |} = []).
Proof.
  assert (Hmain : main Example.fmt (Example.env Example.empty_script 4) "empty" []
                    {| stdout := [Str "no main function found in empty"];
                       out_swp := []; fp_buffer := []; exe := []; thread_pool := [] |}
                    (inl (AttributeError "EXIT" "NO_MAIN")))
    by (apply main_raises; reflexivity).
  refine (conj eq_refl (conj eq_refl (conj Hmain _))).
  exact (main_no_entry_point Example.fmt (Example.env Example.empty_script 4) "empty"
           Example.empty_script _ _ _ eq_refl eq_refl Hmain).
Defined.

(** The amended C8 on a machine of four units. *)
Lemma cores_of_units_witness :
  2 <= 4
  /\ cores_of (Some 4) = inr (4 - 1)
  /\ 1 <= 4 - 1
  /\ ProcessPoolExecutor (4 - 1) = inr (4 - 1)
  /\ (forall env script w d,
      cpu_count env = Some 4 ->
      main_dispatch env script world0 = (w, inr (inr d)) ->
      max_workers d = 4 - 1).
Proof.
  assert (H : 2 <= 4) by (intros E; discriminate E).
  exact (conj H (cores_of_units 4 H)).
Defined.

(** * Further properties *)

(** ** The product of the axes *)

Lemma flat_map_flat_map {A B C : Type} (f : A -> list B) (g : B -> list C) (l : list A) :
  flat_map g (flat_map f l) = flat_map (fun a => flat_map g (f a)) l.
Proof.
  induction l as [|a l IH]; simpl; [reflexivity|].
  rewrite flat_map_app, IH. reflexivity.
Qed.

Lemma flat_map_map {A B C : Type} (f : A -> B) (g : B -> list C) (l : list A) :
  flat_map g (map f l) = flat_map (fun a => g (f a)) l.
Proof.
  induction l as [|a l IH]; simpl; [reflexivity|]. rewrite IH. reflexivity.
Qed.

Lemma map_flat_map {A B C : Type} (f : A -> list B) (g : B -> C) (l : list A) :
  map g (flat_map f l) = flat_map (fun a => map g (f a)) l.
Proof.
  induction l as [|a l IH]; simpl; [reflexivity|].
  rewrite map_app, IH. reflexivity.
Qed.

Section ProductOfAxes.

Context {A : Type}.

(** The loop of [product], from any intermediate result. *)
Lemma product_from (pools : list (list A)) (acc : list (list A)) :
  fold_left
    (fun result pool => flat_map (fun x => map (fun y => x ++ [y]) pool) result)
    pools acc
  = flat_map (fun x => map (app x) (product pools)) acc.
Proof.
  revert acc. induction pools as [|pool pools IH]; intros acc.
  - simpl. induction acc as [|x acc IHacc]; simpl; [reflexivity|].
    rewrite app_nil_r, <- IHacc. reflexivity.
  - unfold product. simpl. rewrite !IH. rewrite app_nil_r.
    rewrite flat_map_flat_map. apply flat_map_ext. intros x.
    rewrite flat_map_map, map_flat_map, flat_map_map.
    apply flat_map_ext. intros y. rewrite map_map.
    apply map_ext. intros t. rewrite <- app_assoc. reflexivity.
Qed.

(** The tuples come in blocks by the value of the first pool, in the
    order of its values: the first pool varies slowest. *)
Lemma product_first_axis_slowest (pool : list A) (pools : list (list A)) :
  product (pool :: pools)
  = flat_map (fun x => map (cons x) (product pools)) pool.
Proof.
  unfold product at 1. simpl. rewrite product_from, app_nil_r, flat_map_map.
  reflexivity.
Qed.

Lemma product_length (pools : list (list A)) :
  length (product pools) = space_size pools.
Proof.
  induction pools as [|pool pools IH]; [reflexivity|].
  rewrite product_first_axis_slowest. unfold space_size in *. simpl.
  rewrite <- IH. clear IH.
  induction pool as [|x pool IHp]; simpl; [reflexivity|].
  rewrite length_app, length_map, IHp. reflexivity.
Qed.

Lemma product_In (pools : list (list A)) (t : list A) :
  In t (product pools) <-> Forall2 (fun x pool => In x pool) t pools.
Proof.
  revert t. induction pools as [|pool pools IH]; intros t.
  - simpl. split.
    + intros [<-|[]]. constructor.
    + intros H. inversion H. left. reflexivity.
  - rewrite product_first_axis_slowest, in_flat_map. split.
    + intros (x & Hx & Ht). apply in_map_iff in Ht as (t' & <- & Ht').
      constructor; [assumption|]. apply IH. assumption.
    + intros H. inversion H as [|x pool' t' pools' Hx Ht']; subst.
      exists x. split; [assumption|]. apply in_map_iff.
      exists t'. split; [reflexivity|]. apply IH. assumption.
Qed.

Lemma product_NoDup (pools : list (list A)) :
  Forall (@NoDup A) pools -> NoDup (product pools).
Proof.
  induction 1 as [|pool pools Hpool Hpools IH].
  - constructor; [intros []|constructor].
  - rewrite product_first_axis_slowest.
    induction Hpool as [|x pool Hx Hpool IHp]; simpl; [constructor|].
    apply NoDup_app.
    + clear -IH. induction IH as [|t ts Ht Hts IHt]; simpl; constructor;
        [|assumption].
      rewrite in_map_iff. intros (t' & E & Ht'). injection E as ->. contradiction.
    + assumption.
    + intros t Ht Ht'. apply in_map_iff in Ht as (t1 & <- & _).
      apply in_flat_map in Ht' as (x' & Hx' & Ht').
      apply in_map_iff in Ht' as (t2 & E & _). injection E as -> _. contradiction.
Qed.

End ProductOfAxes.

(** ** The space of any number of axes *)

Lemma mapM_Forall2 {A B} (f : A -> py B) (l : list A) (bs : list B) :
  mapM f l = inr bs <-> Forall2 (fun a b => f a = inr b) l bs.
Proof.
  revert bs. induction l as [|a l IH]; intros bs; simpl.
  - split.
    + intros H. injection H as <-. constructor.
    + intros H. inversion H. reflexivity.
  - split.
    + destruct (f a) as [e|b] eqn:Hfa; simpl; [discriminate|].
      destruct (mapM f l) as [e|bs'] eqn:Hl; simpl; [discriminate|].
      intros H. injection H as <-. constructor; [assumption|].
      apply IH. reflexivity.
    + intros H. inversion H as [|a' b l' bs' Hab Hl]; subst.
      rewrite Hab. simpl. apply IH in Hl. rewrite Hl. reflexivity.
Qed.

Lemma mapM_first_failure {A B} (f : A -> py B) (pre post : list A) (a : A) (e : exn) :
  Forall (fun x => exists b, f x = inr b) pre ->
  f a = inl e ->
  mapM f (pre ++ a :: post) = inl e.
Proof.
  induction 1 as [|x pre [b Hx] Hpre IH]; intros Ha; simpl.
  - rewrite Ha. reflexivity.
  - rewrite Hx. simpl. rewrite IH by assumption. reflexivity.
Qed.

Lemma yield_parameter_space_expand (args : Namespace) :
  yield_parameter_space args
  = (space <- mapM expand_axis args ;; ret (product space)).
Proof. reflexivity. Qed.

Lemma yield_parameter_space_product (args : Namespace) (space : list (list float)) :
  Forall2 (fun cs xs => expand_axis cs = inr xs) args space ->
  yield_parameter_space args = inr (product space).
Proof.
  intros H. apply mapM_Forall2 in H.
  rewrite yield_parameter_space_expand, H. reflexivity.
Qed.

(** X1.  When every axis expands, the space has as many tuples as the
    product of the sizes of the axes, and every tuple has one
    component per axis. *)
Theorem yield_parameter_space_size (args : Namespace) (space : list (list float)) :
  Forall2 (fun cs xs => expand_axis cs = inr xs) args space ->
  exists l : list (list float),
    yield_parameter_space args = inr l
    /\ length l = space_size space
    /\ forall t, In t l -> length t = length args.
Proof.
  intros H. exists (product space).
  split; [apply yield_parameter_space_product; assumption|].
  split; [apply product_length|].
  intros t Ht. apply product_In in Ht.
  rewrite (Forall2_length Ht). symmetry. exact (Forall2_length H).
Qed.

(** X2.  When every axis expands, the tuples of the space are exactly
    the combinations of one value of each axis, in the order of the
    axes. *)
Theorem yield_parameter_space_covers (args : Namespace) (space : list (list float))
  (t : list float) :
  Forall2 (fun cs xs => expand_axis cs = inr xs) args space ->
  exists l : list (list float),
    yield_parameter_space args = inr l
    /\ (In t l <-> Forall2 (fun x xs => In x xs) t space).
Proof.
  intros H. exists (product space).
  split; [apply yield_parameter_space_product; assumption|].
  apply product_In.
Qed.

(** X3.  When no axis repeats a value, no tuple of the space is
    repeated, whatever the number of axes. *)
Theorem yield_parameter_space_NoDup (args : Namespace) (space : list (list float)) :
  Forall2 (fun cs xs => expand_axis cs = inr xs) args space ->
  Forall (@NoDup float) space ->
  exists l : list (list float),
    yield_parameter_space args = inr l /\ NoDup l.
Proof.
  intros H Hnd. exists (product space).
  split; [apply yield_parameter_space_product; assumption|].
  apply product_NoDup. assumption.
Qed.

(** X4.  An axis declared before the others varies slowest: the space
    is made of one block per value of that axis, in the order of its
    values, and each block is the space of the other axes with that
    value put first. *)
Theorem yield_parameter_space_blocks (axis : string * (float * float * float))
  (args : Namespace) (xs : list float) (rest : list (list float)) :
  expand_axis axis = inr xs ->
  yield_parameter_space args = inr rest ->
  yield_parameter_space (axis :: args)
  = inr (flat_map (fun x => map (cons x) rest) xs).
Proof.
  intros Hx Hrest. rewrite yield_parameter_space_expand in *. simpl.
  rewrite Hx. simpl.
  destruct (mapM expand_axis args) as [e|space]; simpl in *; [discriminate|].
  injection Hrest as <-. rewrite product_first_axis_slowest. reflexivity.
Qed.

(** X5.  The axes are expanded in order, and the first that fails
    fails the whole space with its exception: no tuple is produced. *)
Theorem yield_parameter_space_fails (pre post : Namespace)
  (axis : string * (float * float * float)) (e : exn) :
  Forall (fun cs => exists xs, expand_axis cs = inr xs) pre ->
  expand_axis axis = inl e ->
  yield_parameter_space (pre ++ axis :: post) = inl e.
Proof.
  intros Hpre Haxis. rewrite yield_parameter_space_expand.
  rewrite (mapM_first_failure expand_axis pre post axis e Hpre Haxis).
  reflexivity.
Qed.

(** X6.  When every axis expands and one of them expands to no value,
    the space is empty. *)
Theorem yield_parameter_space_empty_axis (args : Namespace) (space : list (list float)) :
  Forall2 (fun cs xs => expand_axis cs = inr xs) args space ->
  In [] space ->
  yield_parameter_space args = inr [].
Proof.
  intros H Hempty. rewrite (yield_parameter_space_product args space H).
  f_equal. apply length_zero_iff_nil. rewrite product_length.
  unfold space_size. clear H. induction space as [|xs space IH]; [destruct Hempty|].
  destruct Hempty as [->|Hin]; simpl; [reflexivity|].
  rewrite (IH Hin). apply Nat.mul_0_r.
Qed.

(** ** What the pools account for *)

Section Accounts.

Variable fmt6 : float -> string.
Variable target : list float -> outcome.

Lemma returned_tasks_app (l1 l2 : list (list float)) :
  returned_tasks target (l1 ++ l2) = returned_tasks target l1 ++ returned_tasks target l2.
Proof. apply flat_map_app. Qed.

Lemma completed_app (evs1 evs2 : list event) :
  completed (evs1 ++ evs2) = completed evs1 ++ completed evs2.
Proof. apply flat_map_app. Qed.

Lemma saved_app (evs1 evs2 : list event) :
  saved (evs1 ++ evs2) = saved evs1 ++ saved evs2.
Proof. apply flat_map_app. Qed.

(** The close completes no call and runs no save task. *)
Lemma close_events_tasks (fault : option exn) (w : world) :
  completed (close_events fault w) = [] /\ saved (close_events fault w) = [].
Proof.
  unfold close_events. destruct (fp_buffer w); [|destruct fault]; split; reflexivity.
Qed.

(** While the manager thread lives, a step completes one call, runs
    one save task or moves the buffer, and a save task is there to
    run only for a call that returned. *)
Lemma step_tasks (w w' : world) (ev : event) :
  step fmt6 target w ev w' -> survives target (exe w) ->
  Permutation (exe w' ++ completed [ev]) (exe w)
  /\ Permutation (thread_pool w' ++ saved [ev])
       (thread_pool w ++ returned_tasks target (completed [ev])).
Proof.
  intros Hstep Hs.
  destruct Hstep as [w l1 state l2 Hexe | w l1 state result l2 fault Htp | w Hb | w Hb].
  - rewrite invoke_save_on_complete.
    assert (Hf : fatal (target state) = false).
    { unfold survives in Hs. rewrite Forall_forall in Hs. apply Hs.
      rewrite Hexe. apply in_elt. }
    rewrite Hexe.
    destruct (target state) as [result|e] eqn:Ht; simpl; rewrite Ht; simpl.
    + split; [|rewrite !app_nil_r; reflexivity].
      rewrite <- app_assoc. apply Permutation_app_head.
      symmetry. apply Permutation_cons_append.
    + simpl in Hf. apply negb_false_iff in Hf. rewrite Hf. simpl.
      split; [|rewrite !app_nil_r; reflexivity].
      rewrite <- app_assoc. apply Permutation_app_head.
      symmetry. apply Permutation_cons_append.
  - assert (Hw : forall w1,
               thread_pool w1 = l1 ++ l2 -> exe w1 = exe w ->
               Permutation (exe w1 ++ completed [Saved state result fault
                              (snd (save fmt6 fault state result (thread_pool_take l1 l2 w)))])
                 (exe w)
               /\ Permutation (thread_pool w1 ++ saved [Saved state result fault
                              (snd (save fmt6 fault state result (thread_pool_take l1 l2 w)))])
                    (thread_pool w ++ returned_tasks target
                       (completed [Saved state result fault
                              (snd (save fmt6 fault state result (thread_pool_take l1 l2 w)))]))).
    { intros w1 H1 H2. simpl. rewrite H1, H2, Htp, !app_nil_r.
      split; [reflexivity|].
      rewrite <- app_assoc. apply Permutation_app_head.
      symmetry. apply Permutation_cons_append. }
    destruct fault as [e|].
    + rewrite save_refused. apply Hw; reflexivity.
    + rewrite save_accepted. apply Hw; reflexivity.
  - simpl. rewrite !app_nil_r. split; reflexivity.
  - simpl. rewrite !app_nil_r. split; reflexivity.
Qed.

Lemma run_tasks (w w' : world) (evs : list event) :
  run fmt6 target w evs w' -> survives target (exe w) ->
  Permutation (exe w' ++ completed evs) (exe w)
  /\ Permutation (thread_pool w' ++ saved evs)
       (thread_pool w ++ returned_tasks target (completed evs)).
Proof.
  induction 1 as [w|w ev w1 evs w2 Hstep Hrun IH]; intros Hs.
  - simpl. rewrite !app_nil_r. split; reflexivity.
  - destruct (IH (step_survives _ _ _ _ _ Hstep Hs)) as [IH1 IH2].
    destruct (step_tasks _ _ _ Hstep Hs) as [S1 S2].
    change (ev :: evs) with ([ev] ++ evs).
    rewrite completed_app, saved_app, returned_tasks_app. split.
    + rewrite <- S1, <- IH1. rewrite <- !app_assoc.
      apply Permutation_app_head. apply Permutation_app_comm.
    + etransitivity; [apply Permutation_app_swap_app|].
      etransitivity; [apply Permutation_app_head; exact IH2|].
      etransitivity; [apply Permutation_app_swap_app|].
      rewrite !app_assoc. apply Permutation_app_tail. exact S2.
Qed.

End Accounts.

(** ** The paths of [main] *)

Lemma main_dispatch_parsed (env : environment) (script : string) (m : module)
  (a : attribute) (parsed : list string * option string) (args : Namespace) :
  import_module env script = inr m ->
  mod_main m = Some a ->
  make_parser_for_main m = inr parsed ->
  parse_known_args (fst parsed) (argv env) = inr args ->
  main_dispatch env script world0
  = (let w1 := if swap_exists env
               then fst (print (Str "resetting swap file...") world0)
               else world0 in
     match cores_of (cpu_count env) with
     | inl e => (w1, inl e)
     | inr cores =>
         match ProcessPoolExecutor cores with
         | inl e => (w1, inl e)
         | inr workers =>
             let w2 := fst (print (Str "starting task submission") w1) in
             match yield_parameter_space args with
             | inl e => (w2, inl e)
             | inr space =>
                 (fst (for_each exe_submit space w2),
                  inr (inr {| target := call_attribute a; max_workers := workers |}))
             end
         end
     end).
Proof.
  intros Himp Hmain Hparse Hargs.
  unfold main_dispatch, io_bind, try_except, lift, io_ret, ret.
  rewrite Himp. cbv beta iota. rewrite Hmain, Hparse. cbv beta iota.
  rewrite Hargs. cbv beta iota zeta.
  destruct (swap_exists env); unfold print; cbv beta iota;
    destruct (cores_of (cpu_count env)) as [e|cores]; try reflexivity;
    destruct (ProcessPoolExecutor cores) as [e|workers]; try reflexivity;
    destruct (yield_parameter_space args) as [e|space]; try reflexivity;
    rewrite !for_each_submit; reflexivity.
Qed.

Section Paths.

Variable fmt6 : float -> string.

(** A run of [main] follows what [main_dispatch] gives. *)
Lemma main_of_dispatch (env : environment) (script : string)
  (evs : list event) (w : world) (r : py EXIT) :
  main fmt6 env script evs w r ->
  (exists e, main_dispatch env script world0 = (w, inl e) /\ evs = [] /\ r = inl e)
  \/ (exists status,
       main_dispatch env script world0 = (w, inr (inl status))
       /\ evs = [] /\ r = inr status)
  \/ (exists w0 d evs' w' fault,
       main_dispatch env script world0 = (w0, inr (inr d))
       /\ run fmt6 (target d) w0 evs' w' /\ drained w'
       /\ evs = evs' ++ close_events fault w'
       /\ w = fst (main_finish fault w') /\ r = snd (main_finish fault w')).
Proof.
  intros [w1 e Hd | w1 status Hd | w1 d evs1 w' fault Hd Hrun Hdrained].
  - left. eauto.
  - right. left. eauto.
  - right. right. exists w1, d, evs1, w', fault. auto 10.
Qed.

(** When [main_dispatch] stops with an exception, so does [main], and
    the pools have done nothing. *)
Lemma main_stops (env : environment) (script : string) (w0 : world) (e : exn)
  (evs : list event) (w : world) (r : py EXIT) :
  main_dispatch env script world0 = (w0, inl e) ->
  main fmt6 env script evs w r ->
  evs = [] /\ w = w0 /\ r = inl e.
Proof.
  intros Hd Hmain.
  destruct (main_of_dispatch _ _ _ _ _ Hmain)
    as [(e' & Hd' & -> & ->)
       | [(status & Hd' & _) | (w1 & d & evs' & w' & fault & Hd' & _)]];
    rewrite Hd in Hd'; try discriminate.
  injection Hd' as <- <-. auto.
Qed.

Lemma main_returns_early (env : environment) (script : string) (w0 : world)
  (status : EXIT) (evs : list event) (w : world) (r : py EXIT) :
  main_dispatch env script world0 = (w0, inr (inl status)) ->
  main fmt6 env script evs w r ->
  evs = [] /\ w = w0 /\ r = inr status.
Proof.
  intros Hd Hmain.
  destruct (main_of_dispatch _ _ _ _ _ Hmain)
    as [(e' & Hd' & _)
       | [(status' & Hd' & -> & ->) | (w1 & d & evs' & w' & fault & Hd' & _)]];
    rewrite Hd in Hd'; try discriminate.
  injection Hd' as <- <-. auto.
Qed.

(** X7.  When the import of the script raises [ImportError], [main]
    prints the message of the exception and a hint, and returns
    [EXIT.NO_MODULE_NAMED_Y] (status 1); any other exception of the
    import goes through [main].  Either way no tuple is submitted and
    no line is written. *)
Theorem main_import_fails (env : environment) (script : string) (e : exn)
  (evs : list event) (w : world) (r : py EXIT) :
  import_module env script = inl e ->
  main fmt6 env script evs w r ->
  evs = [] /\ exe w = [] /\ out_swp w = []
  /\ (forall msg, e = ImportError msg ->
      r = inr NO_MODULE_NAMED_Y /\ exit_status r = 1
      /\ stdout w = [Str msg; Str "did you prehaps add .py at the end of the filename?"])
  /\ (is_ImportError e = false -> r = inl e /\ stdout w = []).
Proof.
  intros Himp Hmain.
  destruct (is_ImportError e) eqn:He.
  - destruct e; try discriminate He.
    assert (Hd : main_dispatch env script world0
                 = ({| stdout := [Str msg;
                                  Str "did you prehaps add .py at the end of the filename?"];
                       out_swp := []; fp_buffer := []; exe := []; thread_pool := [] |},
                    inr (inl NO_MODULE_NAMED_Y))).
    { unfold main_dispatch, io_bind, try_except, lift, io_ret, ret.
      rewrite Himp. reflexivity. }
    destruct (main_returns_early _ _ _ _ _ _ _ Hd Hmain) as (-> & -> & ->).
    do 3 (split; [reflexivity|]). split; [|discriminate].
    intros msg' E. injection E as <-. repeat split.
  - assert (Hd : main_dispatch env script world0 = (world0, inl e)).
    { unfold main_dispatch, io_bind, try_except, lift, io_ret, ret.
      rewrite Himp. cbv beta iota. rewrite He. reflexivity. }
    destruct (main_stops _ _ _ _ _ _ _ Hd Hmain) as (-> & -> & ->).
    do 3 (split; [reflexivity|]). split; [|auto].
    intros msg ->. discriminate He.
Qed.

(** X8.  When the module holds under [main] a string, an integer or
    [None], which have no annotations, [main] passes the test for
    [main] and then raises [AttributeError], at [__annotations__];
    nothing is printed or submitted. *)
Theorem main_not_a_function (env : environment) (script : string) (m : module)
  (v : value) (evs : list event) (w : world) (r : py EXIT) :
  import_module env script = inr m ->
  mod_main m = Some (Object v) ->
  main fmt6 env script evs w r ->
  r = inl (AttributeError "object" "__annotations__")
  /\ evs = [] /\ w = world0.
Proof.
  intros Himp Hobj Hmain.
  assert (Hd : main_dispatch env script world0
               = (world0, inl (AttributeError "object" "__annotations__"))).
  { unfold main_dispatch, io_bind, try_except, lift, io_ret, ret.
    rewrite Himp. cbv beta iota. rewrite Hobj.
    unfold make_parser_for_main. rewrite Hobj. reflexivity. }
  destruct (main_stops _ _ _ _ _ _ _ Hd Hmain) as (-> & -> & ->). auto.
Qed.



Lemma parse_known_args_order (parser : list string) (options args : Namespace) :
  parse_known_args parser options = inr args ->
  map fst args = parser /\ forall o, In o args -> In o options.
Proof.
  unfold parse_known_args. intros H. apply mapM_Forall2 in H.
  induction H as [|arg o parser args Ho Hrest [IH1 IH2]]; simpl.
  - split; [reflexivity | intros o []].
  - destruct (find (fun o => String.eqb (fst o) arg) options) as [o'|] eqn:Hfind;
      [|discriminate].
    injection Ho as ->. apply find_some in Hfind as [Hin Heq].
    apply String.eqb_eq in Heq. split; [rewrite Heq, IH1; reflexivity|].
    intros o' [<-|Ho']; auto.
Qed.

Lemma names_but_return (params : list (string * string)) :
  map fst (filter (fun p => negb (String.eqb (fst p) "return")) params)
  = filter (fun name => negb (String.eqb name "return")) (map fst params).
Proof.
  induction params as [|p ps IH]; simpl; [reflexivity|].
  destruct (String.eqb (fst p) "return"); simpl; rewrite IH; reflexivity.
Qed.

(** X9.  The tuples follow the declaration of the target, not the
    command line: the parsed [Namespace] has exactly the parameters
    that the target annotates, without [return], in the order of the
    annotations, each with a triple given on the command line. *)
Theorem args_in_declaration_order (m : module) (f : function)
  (parsed : list string * option string) (options args : Namespace) :
  mod_main m = Some (Function f) ->
  make_parser_for_main m = inr parsed ->
  parse_known_args (fst parsed) options = inr args ->
  map fst args
  = filter (fun name => negb (String.eqb name "return")) (map fst (annotations f))
  /\ ~ In "return"%string (map fst args)
  /\ (forall o, In o args -> In o options).
Proof.
  intros Hmain Hparser Hargs.
  unfold make_parser_for_main in Hparser. rewrite Hmain in Hparser.
  injection Hparser as <-. simpl in Hargs.
  apply parse_known_args_order in Hargs as [Horder Hfrom].
  rewrite Horder, (names_but_return (annotations f)). split; [reflexivity|]. split; [|assumption].
  intros Hin. apply filter_In in Hin as [_ Hneq].
  rewrite String.eqb_refl in Hneq. discriminate.
Qed.


(** X11.  On a machine of one processing unit (or none reported as
    such), [main] raises [ValueError] when it starts the process pool
    with [os.cpu_count() - 1] workers: after import and parsing,
    before any tuple is submitted or any line written. *)
Theorem main_too_few_units (env : environment) (script : string) (m : module)
  (a : attribute) (parsed : list string * option string) (args : Namespace) (n : Z)
  (evs : list event) (w : world) (r : py EXIT) :
  import_module env script = inr m ->
  mod_main m = Some a ->
  make_parser_for_main m = inr parsed ->
  parse_known_args (fst parsed) (argv env) = inr args ->
  cpu_count env = Some n ->
  n <= 1 ->
  main fmt6 env script evs w r ->
  r = inl ValueError /\ exit_status r = 1
  /\ evs = [] /\ exe w = [] /\ out_swp w = [].
Proof.
  intros Himp Hmain Hparser Hargs Hcpu Hn Hrun.
  pose proof (main_dispatch_parsed env script m a parsed args Himp Hmain Hparser Hargs)
    as Hd.
  rewrite Hcpu in Hd. unfold cores_of, ProcessPoolExecutor, ret, raise in Hd.
  cbv beta iota zeta in Hd.
  destruct (Z.leb_spec (n - 1) 0) as [_|Hgt]; [|lia].
  cbv beta iota in Hd.
  destruct (main_stops _ _ _ _ _ _ _ Hd Hrun) as (-> & -> & ->).
  destruct (swap_exists env); auto.
Qed.

(** X12.  The axes are expanded before the first tuple is submitted:
    when an axis fails, [main] has announced the submission, raises
    the exception of the axis, and has called the target for no
    tuple, also not for those of the axes before. *)
Theorem main_space_fails (env : environment) (script : string) (m : module)
  (a : attribute) (parsed : list string * option string) (args : Namespace) (n : Z)
  (e : exn) (evs : list event) (w : world) (r : py EXIT) :
  import_module env script = inr m ->
  mod_main m = Some a ->
  make_parser_for_main m = inr parsed ->
  parse_known_args (fst parsed) (argv env) = inr args ->
  cpu_count env = Some n ->
  2 <= n ->
  yield_parameter_space args = inl e ->
  main fmt6 env script evs w r ->
  r = inl e /\ evs = [] /\ exe w = [] /\ out_swp w = []
  /\ In (Str "starting task submission") (stdout w).
Proof.
  intros Himp Hmain Hparser Hargs Hcpu Hn Hspace Hrun.
  pose proof (main_dispatch_parsed env script m a parsed args Himp Hmain Hparser Hargs)
    as Hd.
  rewrite Hcpu, Hspace in Hd. unfold cores_of, ProcessPoolExecutor, ret, raise in Hd.
  cbv beta iota zeta in Hd.
  destruct (Z.leb_spec (n - 1) 0) as [Hle|_]; [lia|].
  cbv beta iota in Hd.
  destruct (main_stops _ _ _ _ _ _ _ Hd Hrun) as (-> & -> & ->).
  destruct (swap_exists env); simpl; auto 10.
Qed.

(** With both pools drained and nothing buffered, nothing happens. *)
Lemma run_of_drained (target : list float -> outcome) (w w' : world)
  (evs : list event) :
  drained w -> fp_buffer w = [] -> run fmt6 target w evs w' -> evs = [] /\ w' = w.
Proof.
  intros [He Ht] Hb Hrun. destruct Hrun as [w|w ev w1 evs w2 Hstep Hrun]; [auto|].
  exfalso.
  destruct Hstep as [w l1 state l2 Hexe | w l1 state result l2 fault Htp | w Hn | w Hn].
  - rewrite He in Hexe. destruct l1; discriminate.
  - rewrite Ht in Htp. destruct l1; discriminate.
  - exact (Hn Hb).
  - exact (Hn Hb).
Qed.

(** X13.  When the space is empty, as it is when an axis expands to no
    value, [main] runs no call, writes no line and returns [EXIT.OK]:
    the study is reported as done. *)
Theorem main_empty_space (env : environment) (script : string) (m : module)
  (a : attribute) (parsed : list string * option string) (args : Namespace) (n : Z)
  (evs : list event) (w : world) (r : py EXIT) :
  import_module env script = inr m ->
  mod_main m = Some a ->
  make_parser_for_main m = inr parsed ->
  parse_known_args (fst parsed) (argv env) = inr args ->
  cpu_count env = Some n ->
  2 <= n ->
  yield_parameter_space args = inr [] ->
  main fmt6 env script evs w r ->
  r = inr OK /\ exit_status r = 0 /\ evs = [] /\ out_swp w = []
  /\ In (Str "All tasks done, file closed succesfully") (stdout w).
Proof.
  intros Himp Hmain Hparser Hargs Hcpu Hn Hspace Hrun.
  pose proof (main_dispatch_parsed env script m a parsed args Himp Hmain Hparser Hargs)
    as Hd.
  rewrite Hcpu, Hspace in Hd. unfold cores_of, ProcessPoolExecutor, ret, raise in Hd.
  cbv beta iota zeta in Hd.
  destruct (Z.leb_spec (n - 1) 0) as [Hle|_]; [lia|].
  cbv beta iota in Hd.
  destruct (main_of_dispatch _ _ _ _ _ Hrun)
    as [(e' & Hd' & _)
       | [(status' & Hd' & _)
         | (w0 & d & evs' & w' & fault & Hd' & Hr & Hdr & -> & -> & ->)]];
    rewrite Hd in Hd'; try discriminate.
  injection Hd' as <- <-.
  assert (Hdrained : drained (fst (for_each exe_submit []
                       (fst (print (Str "starting task submission")
                          (if swap_exists env
                           then fst (print (Str "resetting swap file...") world0)
                           else world0)))))).
  { destruct (swap_exists env); split; reflexivity. }
  assert (Hbuf : fp_buffer (fst (for_each exe_submit []
                       (fst (print (Str "starting task submission")
                          (if swap_exists env
                           then fst (print (Str "resetting swap file...") world0)
                           else world0))))) = []).
  { destruct (swap_exists env); reflexivity. }
  destruct (run_of_drained _ _ _ _ Hdrained Hbuf Hr) as [-> ->].
  destruct (swap_exists env); simpl; auto 10.
Qed.

End Paths.

Lemma main_dispatch_early (env : environment) (script : string) (w : world)
  (status : EXIT) :
  main_dispatch env script world0 = (w, inr (inl status)) ->
  status = NO_MODULE_NAMED_Y
  /\ exists msg, import_module env script = inl (ImportError msg).
Proof.
  unfold main_dispatch, io_bind, try_except, lift, io_ret, ret.
  destruct (import_module env script) as [e|m] eqn:Himp; cbv beta iota.
  - destruct e; try discriminate. cbn. intros H. injection H as _ <-. eauto.
  - destruct (mod_main m) as [a|] eqn:Hmain; cbv beta iota; [|discriminate].
    destruct (make_parser_for_main m) as [e|parsed] eqn:Hparse;
      cbv beta iota; [discriminate|].
    destruct (parse_known_args (fst parsed) (argv env)) as [e|args] eqn:Hargs;
      cbv beta iota; [discriminate|].
    destruct (swap_exists env); unfold print; cbv beta iota;
      (destruct (cores_of (cpu_count env)) as [e|cores] eqn:Hcores;
       cbv beta iota; [discriminate|]);
      (destruct (ProcessPoolExecutor cores) as [e|workers] eqn:Hpool;
       cbv beta iota; [discriminate|]);
      (destruct (yield_parameter_space args) as [e|space] eqn:Hspace;
       cbv beta iota; [discriminate|]);
      rewrite for_each_submit; cbn; discriminate.
Qed.

Section Outcomes.

Variable fmt6 : float -> string.

(** X14.  [main] returns one of two statuses only: [EXIT.OK], or
    [EXIT.NO_MODULE_NAMED_Y], and then the import raised [ImportError]
    and the pools did nothing.  It never returns [NO_MAIN_IN_MODULE]
    or [WRITE_IN_THREAD_FAILED]. *)
Theorem main_statuses (env : environment) (script : string)
  (evs : list event) (w : world) (status : EXIT) :
  main fmt6 env script evs w (inr status) ->
  status = OK
  \/ (status = NO_MODULE_NAMED_Y /\ evs = []
      /\ exists msg, import_module env script = inl (ImportError msg)).
Proof.
  intros Hmain.
  destruct (main_of_dispatch _ _ _ _ _ _ Hmain)
    as [(e & _ & _ & E)
       | [(status' & Hd & -> & E)
         | (w0 & d & evs' & w' & fault & _ & _ & _ & _ & _ & E)]].
  - discriminate.
  - injection E as <-. right.
    destruct (main_dispatch_early _ _ _ _ Hd) as [-> Himp]. auto.
  - left. destruct (main_finish_cases fault w')
      as [(_ & Hr & _) | (e & _ & _ & _ & Hr)]; rewrite Hr in E.
    + injection E as <-. reflexivity.
    + discriminate.
Qed.




End Outcomes.

(** ** Statuses and lines *)

(** X17.  The four statuses have four different codes, and [OK] alone
    has the code 0 with which a process reports success. *)
Theorem EXIT_value_distinct (s1 s2 : EXIT) :
  (EXIT_value s1 = EXIT_value s2 -> s1 = s2)
  /\ (EXIT_value s1 = 0 <-> s1 = OK).
Proof.
  split.
  - destruct s1, s2; simpl; intros H; try reflexivity; discriminate H.
  - destruct s1; simpl; split; intros H; try reflexivity; discriminate H.
Qed.

Lemma string_app_assoc (s1 s2 s3 : string) :
  (s1 ++ (s2 ++ s3) = (s1 ++ s2) ++ s3)%string.
Proof.
  induction s1 as [|c s1 IH]; simpl; [reflexivity|]. rewrite IH. reflexivity.
Qed.

Lemma concat_fields (sep : string) (fields : list string) (last : string) :
  fields <> [] ->
  String.concat sep (fields ++ [last])
  = (String.concat sep fields ++ sep ++ last)%string.
Proof.
  induction fields as [|x fields IH]; intros H; [contradiction|].
  destruct fields as [|y fields].
  - simpl. reflexivity.
  - change ((x :: y :: fields) ++ [last]) with (x :: (y :: fields) ++ [last]).
    change (String.concat sep (x :: (y :: fields) ++ [last]))
      with (x ++ sep ++ String.concat sep ((y :: fields) ++ [last]))%string.
    rewrite IH by discriminate.
    change (String.concat sep (x :: y :: fields))
      with (x ++ sep ++ String.concat sep (y :: fields))%string.
    rewrite <- !string_app_assoc. reflexivity.
Qed.

(** X18.  The line of a result with at least one parameter is the
    fields of the parameters and of the result, in this order, with
    single spaces between them and a newline at the end; with no
    parameter the line begins with a space. *)
Theorem record_line_fields (fmt6 : float -> string) (state : list float)
  (result : float) :
  (state <> [] ->
   record_line fmt6 state result
   = (String.concat " " (map fmt6 (state ++ [result])) ++ newline)%string)
  /\ record_line fmt6 [] result = (" " ++ fmt6 result ++ newline)%string.
Proof.
  split; [|reflexivity]. intros Hstate. unfold record_line.
  rewrite map_app. simpl map.
  rewrite concat_fields by (destruct state; [contradiction | discriminate]).
  rewrite <- !string_app_assoc. reflexivity.
Qed.

(** ** The Range Expander at the edges of the doubles *)

Lemma SFcompare_refl (x : spec_float) :
  x <> S754_nan -> SFcompare x x = Some Eq.
Proof.
  destruct x as [s|s| |s m e]; simpl; intros H; try reflexivity.
  - destruct s; reflexivity.
  - contradiction.
  - rewrite Z.compare_refl, Pos.compare_cont_refl. destruct s; reflexivity.
Qed.

Lemma nan_repr (x : float) : is_nan x = true -> Prim2SF x = S754_nan.
Proof.
  unfold is_nan. rewrite FloatAxioms.eqb_spec. unfold SFeqb. intros H.
  destruct (Prim2SF x) as [s|s| |s m e] eqn:E; try reflexivity;
    rewrite SFcompare_refl in H by discriminate; discriminate H.
Qed.

Lemma zero_repr (x : float) :
  is_zero x = true <-> exists s, Prim2SF x = S754_zero s.
Proof.
  unfold is_zero. rewrite FloatAxioms.eqb_spec.
  change (Prim2SF zero) with (S754_zero false). unfold SFeqb. split.
  - destruct (Prim2SF x) as [s|s| |s m e]; simpl; intros H; try discriminate H.
    + eauto.
    + destruct s; discriminate H.
    + destruct s; discriminate H.
  - intros [s ->]. reflexivity.
Qed.

Lemma infinity_repr (x : float) :
  is_infinity x = true -> exists s, Prim2SF x = S754_infinity s.
Proof.
  unfold is_infinity. rewrite FloatAxioms.eqb_spec, abs_spec.
  change (Prim2SF infinity) with (S754_infinity false). unfold SFeqb.
  destruct (Prim2SF x) as [s|s| |s m e]; simpl; intros H; try discriminate H.
  eauto.
Qed.

(** A double that is no zero, no infinity and no NaN. *)
Lemma finite_repr (x : float) :
  is_zero x = false -> is_infinity x = false -> is_nan x = false ->
  exists s m e, Prim2SF x = S754_finite s m e.
Proof.
  intros Hz Hi Hn.
  destruct (Prim2SF x) as [s|s| |s m e] eqn:E; [| | |eauto]; exfalso.
  - assert (H : is_zero x = true) by (apply zero_repr; eauto). congruence.
  - revert Hi. unfold is_infinity. rewrite FloatAxioms.eqb_spec, abs_spec, E.
    discriminate.
  - revert Hn. unfold is_nan. rewrite FloatAxioms.eqb_spec, E. discriminate.
Qed.

(** X19.  For a step that is no zero, a NaN as start or as step makes
    [float_range] raise [ValueError], at the first [int]. *)
Theorem float_range_nan (start stop step : float) :
  is_zero step = false ->
  is_nan start = true \/ is_nan step = true ->
  float_range start stop step = inl ValueError.
Proof.
  intros Hz Hnan. unfold float_range, PyFloat.truediv. rewrite Hz. simpl.
  assert (E : Prim2SF (start / step) = S754_nan).
  { rewrite div_spec. destruct Hnan as [H|H]; apply nan_repr in H; rewrite H.
    - reflexivity.
    - destruct (Prim2SF start); reflexivity. }
  unfold PyFloat.int. rewrite E. reflexivity.
Qed.

(** X20.  For a finite step that is no zero, an infinite start makes
    [float_range] raise [OverflowError]. *)
Theorem float_range_infinite_start (start stop step : float) :
  is_infinity start = true ->
  is_zero step = false -> is_infinity step = false -> is_nan step = false ->
  float_range start stop step = inl OverflowError.
Proof.
  intros Hstart Hz Hi Hn. unfold float_range, PyFloat.truediv. rewrite Hz. simpl.
  destruct (infinity_repr start Hstart) as [s Es].
  destruct (finite_repr step Hz Hi Hn) as (s' & m & e & Ef).
  assert (E : Prim2SF (start / step) = S754_infinity (xorb s s')).
  { rewrite div_spec, Es, Ef. reflexivity. }
  unfold PyFloat.int. rewrite E. reflexivity.
Qed.

(** X21.  For an infinite step and finite start and stop, [float_range]
    returns one value, and it is NaN: both quotients are zeros, and the
    multiple [0 * step] of an infinity is no number. *)
Theorem float_range_infinite_step (start stop step : float) :
  is_infinity step = true ->
  is_infinity start = false -> is_nan start = false ->
  is_infinity stop = false -> is_nan stop = false ->
  float_range start stop step = inr [nan].
Proof.
  intros Hstep Hsi Hsn Hti Htn.
  destruct (infinity_repr step Hstep) as [s Es].
  assert (Hz : is_zero step = false).
  { destruct (is_zero step) eqn:Hz; [|reflexivity].
    apply zero_repr in Hz as [s' Hz]. congruence. }
  assert (Hq : forall x, is_infinity x = false -> is_nan x = false ->
                         PyFloat.int (x / step) = inr 0).
  { intros x Hxi Hxn. unfold PyFloat.int. rewrite div_spec, Es.
    destruct (is_zero x) eqn:Hxz.
    - apply zero_repr in Hxz as [s' ->]. reflexivity.
    - destruct (finite_repr x Hxz Hxi Hxn) as (s' & m & e & ->). reflexivity. }
  rewrite (float_range_quotients start stop step 0 0 Hz (Hq start Hsi Hsn) (Hq stop Hti Htn)).
  f_equal. change (range 0 (0 + 1)) with [0]. simpl map. f_equal.
  apply Prim2SF_inj. rewrite mul_spec, Es.
  change (Prim2SF (PyFloat.nearest 0)) with (S754_zero false). reflexivity.
Qed.

(** X22.  From a start that is zero, with a finite step that is no
    zero and a stop whose quotient truncates to [hi >= 0], the range
    begins at zero, that is at [start], and has [hi + 1] values. *)
Theorem float_range_from_zero (start stop step : float) (hi : Z) :
  is_zero start = true ->
  is_zero step = false -> is_infinity step = false -> is_nan step = false ->
  PyFloat.int (stop / step) = inr hi ->
  0 <= hi ->
  exists first rest,
    float_range start stop step = inr (first :: rest)
    /\ is_zero first = true
    /\ length rest = Z.to_nat hi.
Proof.
  intros Hstart Hz Hi Hn Hhi Hpos.
  apply zero_repr in Hstart as [s Es].
  destruct (finite_repr step Hz Hi Hn) as (s' & m & e & Ef).
  assert (Hlo : PyFloat.int (start / step) = inr 0).
  { unfold PyFloat.int. rewrite div_spec, Es, Ef. reflexivity. }
  rewrite (float_range_quotients start stop step 0 hi Hz Hlo Hhi).
  rewrite range_cons by lia. simpl map.
  eexists. eexists. split; [reflexivity|]. split.
  - apply zero_repr. rewrite mul_spec, Ef.
    change (Prim2SF (PyFloat.nearest 0)) with (S754_zero false).
    exists (xorb false s'). reflexivity.
  - rewrite length_map, range_length. lia.
Qed.

(** ** The further properties on the examples *)

Lemma NoDup_two {A} (a b : A) : a <> b -> NoDup [a; b].
Proof.
  intros Hab. constructor; [simpl; intros [E|[]]; auto|].
  constructor; [simpl; tauto | constructor].
Qed.

Lemma space3_expands :
  Forall2 (fun cs xs => expand_axis cs = inr xs) Cases.args3 Cases.space3.
Proof. repeat constructor. Qed.

Lemma space3_NoDup : Forall (@NoDup float) Cases.space3.
Proof.
  apply Forall_cons; [apply NoDup_three; float_differ|].
  apply Forall_cons; [apply NoDup_three; float_differ|].
  apply Forall_cons; [apply NoDup_two; float_differ|].
  apply Forall_nil.
Qed.

(** X1 on three axes of 3, 3 and 2 values: 18 tuples of 3 components. *)
Lemma yield_parameter_space_size_witness :
  Forall2 (fun cs xs => expand_axis cs = inr xs) Cases.args3 Cases.space3
  /\ space_size Cases.space3 = 18%nat
  /\ exists l : list (list float),
      yield_parameter_space Cases.args3 = inr l
      /\ length l = space_size Cases.space3
      /\ forall t, In t l -> length t = length Cases.args3.
Proof.
  exact (conj space3_expands
           (conj eq_refl
              (yield_parameter_space_size Cases.args3 Cases.space3 space3_expands))).
Defined.

(** X2 on the three axes, for the tuple [(2, 0.5, 1)]. *)
Lemma yield_parameter_space_covers_witness :
  Forall2 (fun cs xs => expand_axis cs = inr xs) Cases.args3 Cases.space3
  /\ exists l : list (list float),
      yield_parameter_space Cases.args3 = inr l
      /\ (In [2; 0.5; 1]%float l
          <-> Forall2 (fun x xs => In x xs) [2; 0.5; 1]%float Cases.space3).
Proof.
  exact (conj space3_expands
           (yield_parameter_space_covers Cases.args3 Cases.space3 [2; 0.5; 1]%float
              space3_expands)).
Defined.

(** X3 on the three axes. *)
Lemma yield_parameter_space_NoDup_witness :
  Forall2 (fun cs xs => expand_axis cs = inr xs) Cases.args3 Cases.space3
  /\ Forall (@NoDup float) Cases.space3
  /\ exists l : list (list float),
      yield_parameter_space Cases.args3 = inr l /\ NoDup l.
Proof.
  exact (conj space3_expands
           (conj space3_NoDup
              (yield_parameter_space_NoDup Cases.args3 Cases.space3
                 space3_expands space3_NoDup))).
Defined.

(** X4: the axis [a: (0, 2, 1)] put before the axes [b] and [c]. *)
Lemma yield_parameter_space_blocks_witness :
  expand_axis ("a"%string, (0, 2, 1)%float) = inr [0; 1; 2]%float
  /\ yield_parameter_space (tl Cases.args3)
     = inr [[0; 0]; [0; 1]; [0.5; 0]; [0.5; 1]; [1; 0]; [1; 1]]%float
  /\ yield_parameter_space (("a"%string, (0, 2, 1)%float) :: tl Cases.args3)
     = inr (flat_map
              (fun x => map (cons x)
                          [[0; 0]; [0; 1]; [0.5; 0]; [0.5; 1]; [1; 0]; [1; 1]]%float)
              [0; 1; 2]%float).
Proof.
  exact (conj eq_refl
           (conj eq_refl
              (yield_parameter_space_blocks ("a"%string, (0, 2, 1)%float)
                 (tl Cases.args3) [0; 1; 2]%float
                 [[0; 0]; [0; 1]; [0.5; 0]; [0.5; 1]; [1; 0]; [1; 1]]%float
                 eq_refl eq_refl))).
Defined.

(** X5: a zero step on the second of three axes. *)
Lemma yield_parameter_space_fails_witness :
  Forall (fun cs => exists xs, expand_axis cs = inr xs)
    [("a"%string, (0, 2, 1)%float)]
  /\ expand_axis ("b"%string, (0, 1, 0)%float) = inl ZeroDivisionError
  /\ yield_parameter_space
       ([("a"%string, (0, 2, 1)%float)]
          ++ ("b"%string, (0, 1, 0)%float) :: [("c"%string, (0, 1, 1)%float)])
     = inl ZeroDivisionError.
Proof.
  assert (Hpre : Forall (fun cs => exists xs, expand_axis cs = inr xs)
                   [("a"%string, (0, 2, 1)%float)])
    by (apply Forall_cons; [eexists; reflexivity | apply Forall_nil]).
  exact (conj Hpre
           (conj eq_refl
              (yield_parameter_space_fails [("a"%string, (0, 2, 1)%float)]
                 [("c"%string, (0, 1, 1)%float)] ("b"%string, (0, 1, 0)%float)
                 ZeroDivisionError Hpre eq_refl))).
Defined.

(** X6: the reversed axis [b: (1, 0, 0.5)] beside [a: (0, 2, 1)]. *)
Lemma yield_parameter_space_empty_axis_witness :
  Forall2 (fun cs xs => expand_axis cs = inr xs)
    [("a"%string, (0, 2, 1)%float); ("b"%string, (1, 0, 0.5)%float)]
    [[0; 1; 2]%float; []]
  /\ In [] [[0; 1; 2]%float; []]
  /\ yield_parameter_space
       [("a"%string, (0, 2, 1)%float); ("b"%string, (1, 0, 0.5)%float)] = inr [].
Proof.
  assert (H : Forall2 (fun cs xs => expand_axis cs = inr xs)
                [("a"%string, (0, 2, 1)%float); ("b"%string, (1, 0, 0.5)%float)]
                [[0; 1; 2]%float; []])
    by (repeat constructor).
  assert (Hin : In [] [[0; 1; 2]%float; []]) by (right; left; reflexivity).
  exact (conj H (conj Hin (yield_parameter_space_empty_axis _ _ H Hin))).
Defined.

(** X7 where no module can be imported. *)
Lemma main_import_fails_witness :
  import_module Cases.nothing_to_import "nothing"
  = inl (ImportError "No module named 'nothing'")
  /\ main Example.fmt Cases.nothing_to_import "nothing" []
       {| stdout := [Str "No module named 'nothing'";
                     Str "did you prehaps add .py at the end of the filename?"];
          out_swp := []; fp_buffer := []; exe := []; thread_pool := [] |}
       (inr NO_MODULE_NAMED_Y)
  /\ exit_status (inr NO_MODULE_NAMED_Y) = 1.
Proof.
  assert (Hmain : main Example.fmt Cases.nothing_to_import "nothing" []
                    {| stdout := [Str "No module named 'nothing'";
                                  Str "did you prehaps add .py at the end of the filename?"];
                       out_swp := []; fp_buffer := []; exe := []; thread_pool := [] |}
                    (inr NO_MODULE_NAMED_Y))
    by (apply main_early; reflexivity).
  refine (conj eq_refl (conj Hmain _)).
  destruct (main_import_fails Example.fmt Cases.nothing_to_import "nothing" _ _ _ _
              eq_refl Hmain) as (_ & _ & _ & H & _).
  exact (proj1 (proj2 (H _ eq_refl))).
Defined.

(** X8 for the module whose [main] is the number 5. *)
Lemma main_not_a_function_witness :
  import_module (Example.env Cases.constant_script 4) "constant"
  = inr Cases.constant_script
  /\ mod_main Cases.constant_script = Some (Object (Int 5))
  /\ main Example.fmt (Example.env Cases.constant_script 4) "constant" [] world0
       (inl (AttributeError "object" "__annotations__"))
  /\ (@inl exn EXIT (AttributeError "object" "__annotations__")
      = inl (AttributeError "object" "__annotations__")
      /\ @nil event = [] /\ world0 = world0).
Proof.
  assert (Hmain : main Example.fmt (Example.env Cases.constant_script 4) "constant"
                    [] world0 (inl (AttributeError "object" "__annotations__")))
    by (apply main_raises; reflexivity).
  exact (conj eq_refl (conj eq_refl (conj Hmain
           (main_not_a_function Example.fmt (Example.env Cases.constant_script 4)
              "constant" Cases.constant_script (Int 5) _ _ _
              eq_refl eq_refl Hmain)))).
Defined.

(** X9 for the target of the parameters [a] and [b] and a command line
    that gives [b], a foreign option and [a]. *)
Lemma args_in_declaration_order_witness :
  mod_main Cases.sum_script = Some (Function Cases.sum_function)
  /\ make_parser_for_main Cases.sum_script = inr (["a"; "b"]%string, Some "float"%string)
  /\ parse_known_args (fst (["a"; "b"]%string, Some "float"%string)) Cases.options_b_a
     = inr [("a", (0, 2, 1)); ("b", (0, 1, 0.5))]%string%float
  /\ (map fst [("a", (0, 2, 1)); ("b", (0, 1, 0.5))]%string%float
      = filter (fun name => negb (String.eqb name "return"))
          (map fst (annotations Cases.sum_function))
      /\ ~ In "return"%string (map fst [("a", (0, 2, 1)); ("b", (0, 1, 0.5))]%string%float)
      /\ (forall o, In o [("a", (0, 2, 1)); ("b", (0, 1, 0.5))]%string%float ->
                    In o Cases.options_b_a)).
Proof.
  exact (conj eq_refl (conj eq_refl (conj eq_refl
           (args_in_declaration_order Cases.sum_script Cases.sum_function
              (["a"; "b"]%string, Some "float"%string) Cases.options_b_a
              [("a", (0, 2, 1)); ("b", (0, 1, 0.5))]%string%float
              eq_refl eq_refl eq_refl)))).
Defined.


(** X11 for the doubling study on a machine of one unit. *)
Lemma main_too_few_units_witness :
  import_module (Example.env (Example.script Example.double) 1) "script"
  = inr (Example.script Example.double)
  /\ parse_known_args (fst (["a"]%string, Some "float"%string))
       (argv (Example.env (Example.script Example.double) 1))
     = inr [("a"%string, (0, 2, 1)%float)]
  /\ cpu_count (Example.env (Example.script Example.double) 1) = Some 1
  /\ 1 <= 1
  /\ main Example.fmt (Example.env (Example.script Example.double) 1) "script"
       [] world0 (inl ValueError)
  /\ (@inl exn EXIT ValueError = inl ValueError
      /\ exit_status (inl ValueError) = 1
      /\ @nil event = [] /\ exe world0 = [] /\ out_swp world0 = []).
Proof.
  assert (Hn : 1 <= 1) by (intros E; discriminate E).
  assert (Hmain : main Example.fmt (Example.env (Example.script Example.double) 1)
                    "script" [] world0 (inl ValueError))
    by (apply main_raises; reflexivity).
  exact (conj eq_refl (conj eq_refl (conj eq_refl (conj Hn (conj Hmain
           (main_too_few_units Example.fmt
              (Example.env (Example.script Example.double) 1) "script"
              (Example.script Example.double) _ (["a"]%string, Some "float"%string)
              [("a"%string, (0, 2, 1)%float)] 1 _ _ _
              eq_refl eq_refl eq_refl eq_refl eq_refl Hn Hmain)))))).
Defined.

(** X12 for the doubling study with the axis [a: (0, 2, 0)], where a
    stale swap file exists. *)
Lemma main_space_fails_witness :
  parse_known_args (fst (["a"]%string, Some "float"%string))
    (argv (Cases.doubling_with [("a"%string, (0, 2, 0)%float)] 4))
  = inr [("a"%string, (0, 2, 0)%float)]
  /\ 2 <= 4
  /\ yield_parameter_space [("a"%string, (0, 2, 0)%float)] = inl ZeroDivisionError
  /\ main Example.fmt (Cases.doubling_with [("a"%string, (0, 2, 0)%float)] 4) "script" []
       {| stdout := [Str "resetting swap file..."; Str "starting task submission"];
          out_swp := []; fp_buffer := []; exe := []; thread_pool := [] |}
       (inl ZeroDivisionError)
  /\ In (Str "starting task submission")
       [Str "resetting swap file..."; Str "starting task submission"].
Proof.
  assert (Hn : 2 <= 4) by (intros E; discriminate E).
  assert (Hmain : main Example.fmt
                    (Cases.doubling_with [("a"%string, (0, 2, 0)%float)] 4) "script" []
                    {| stdout := [Str "resetting swap file...";
                                  Str "starting task submission"];
                       out_swp := []; fp_buffer := []; exe := []; thread_pool := [] |}
                    (inl ZeroDivisionError))
    by (apply main_raises; reflexivity).
  refine (conj eq_refl (conj Hn (conj eq_refl (conj Hmain _)))).
  exact (proj2 (proj2 (proj2 (proj2
           (main_space_fails Example.fmt
              (Cases.doubling_with [("a"%string, (0, 2, 0)%float)] 4) "script"
              (Example.script Example.double) _ (["a"]%string, Some "float"%string)
              [("a"%string, (0, 2, 0)%float)] 4 ZeroDivisionError _ _ _
              eq_refl eq_refl eq_refl eq_refl eq_refl Hn eq_refl Hmain))))).
Defined.

(** X13 for the doubling study with the reversed axis [a: (1, 0, 0.5)]. *)
Lemma main_empty_space_witness :
  parse_known_args (fst (["a"]%string, Some "float"%string))
    (argv (Cases.doubling_with [("a"%string, (1, 0, 0.5)%float)] 4))
  = inr [("a"%string, (1, 0, 0.5)%float)]
  /\ 2 <= 4
  /\ yield_parameter_space [("a"%string, (1, 0, 0.5)%float)] = inr []
  /\ main Example.fmt (Cases.doubling_with [("a"%string, (1, 0, 0.5)%float)] 4) "script" []
       {| stdout := [Str "resetting swap file..."; Str "starting task submission";
                     Str "All tasks done, file closed succesfully"];
          out_swp := []; fp_buffer := []; exe := []; thread_pool := [] |}
       (inr OK)
  /\ (@inr exn EXIT OK = inr OK /\ exit_status (inr OK) = 0 /\ @nil event = []
      /\ @nil string = []
      /\ In (Str "All tasks done, file closed succesfully")
           [Str "resetting swap file..."; Str "starting task submission";
            Str "All tasks done, file closed succesfully"]).
Proof.
  assert (Hn : 2 <= 4) by (intros E; discriminate E).
  assert (Hmain : main Example.fmt
                    (Cases.doubling_with [("a"%string, (1, 0, 0.5)%float)] 4) "script" []
                    {| stdout := [Str "resetting swap file...";
                                  Str "starting task submission";
                                  Str "All tasks done, file closed succesfully"];
                       out_swp := []; fp_buffer := []; exe := []; thread_pool := [] |}
                    (inr OK))
    by exact (main_fifo Example.fmt Example.no_fault None
                (Cases.doubling_with [("a"%string, (1, 0, 0.5)%float)] 4) "script").
  exact (conj eq_refl (conj Hn (conj eq_refl (conj Hmain
           (main_empty_space Example.fmt
              (Cases.doubling_with [("a"%string, (1, 0, 0.5)%float)] 4) "script"
              (Example.script Example.double) _ (["a"]%string, Some "float"%string)
              [("a"%string, (1, 0, 0.5)%float)] 4 _ _ _
              eq_refl eq_refl eq_refl eq_refl eq_refl Hn eq_refl Hmain))))).
Defined.

(** The runs of the doubling study and of the study whose target
    raises [ValueError] at [a = 1], the stream refusing nothing. *)
Lemma doubling_main :
  main Example.fmt Example.doubling "script"
    (fst (fst Example.doubling_run))
    (snd (fst Example.doubling_run))
    (inr OK).
Proof.
  exact (main_fifo Example.fmt Example.no_fault None Example.doubling "script").
Qed.




(** X14 for the doubling study. *)
Lemma main_statuses_witness :
  main Example.fmt Example.doubling "script"
    (fst (fst Example.doubling_run))
    (snd (fst Example.doubling_run))
    (inr OK)
  /\ (OK = OK
      \/ (OK = NO_MODULE_NAMED_Y /\ fst (fst Example.doubling_run) = []
          /\ exists msg, import_module Example.doubling "script" = inl (ImportError msg))).
Proof.
  exact (conj doubling_main
           (main_statuses Example.fmt Example.doubling "script" _ _ OK doubling_main)).
Defined.



(** X19 for a NaN as start. *)
Lemma float_range_nan_witness :
  is_zero 0.5 = false
  /\ (is_nan nan = true \/ is_nan 0.5 = true)
  /\ float_range nan 1 0.5 = inl ValueError.
Proof.
  exact (conj eq_refl (conj (or_introl eq_refl)
           (float_range_nan nan 1 0.5 eq_refl (or_introl eq_refl)))).
Defined.

(** X20 for an infinite start. *)
Lemma float_range_infinite_start_witness :
  is_infinity neg_infinity = true
  /\ is_zero 0.5 = false /\ is_infinity 0.5 = false /\ is_nan 0.5 = false
  /\ float_range neg_infinity 1 0.5 = inl OverflowError.
Proof.
  exact (conj eq_refl (conj eq_refl (conj eq_refl (conj eq_refl
           (float_range_infinite_start neg_infinity 1 0.5
              eq_refl eq_refl eq_refl eq_refl))))).
Defined.

(** X21 for the range from 0 to 1 in infinite steps. *)
Lemma float_range_infinite_step_witness :
  is_infinity infinity = true
  /\ is_infinity 0 = false /\ is_nan 0 = false
  /\ is_infinity 1 = false /\ is_nan 1 = false
  /\ float_range 0 1 infinity = inr [nan].
Proof.
  exact (conj eq_refl (conj eq_refl (conj eq_refl (conj eq_refl (conj eq_refl
           (float_range_infinite_step 0 1 infinity
              eq_refl eq_refl eq_refl eq_refl eq_refl)))))).
Defined.

(** X22 for the range from 0 to 1 in steps of 0.3. *)
Lemma float_range_from_zero_witness :
  is_zero 0 = true
  /\ is_zero 0.3 = false /\ is_infinity 0.3 = false /\ is_nan 0.3 = false
  /\ PyFloat.int (1 / 0.3) = inr 3
  /\ 0 <= 3
  /\ exists first rest,
      float_range 0 1 0.3 = inr (first :: rest)
      /\ is_zero first = true
      /\ length rest = Z.to_nat 3.
Proof.
  assert (H : 0 <= 3) by (intros E; discriminate E).
  exact (conj eq_refl (conj eq_refl (conj eq_refl (conj eq_refl (conj eq_refl
           (conj H
              (float_range_from_zero 0 1 0.3 3
                 eq_refl eq_refl eq_refl eq_refl eq_refl H))))))).
Defined.

(** ** Small spaces *)

(** X23.  One axis gives one tuple of one component per value, in the
    order of the values. *)
Theorem yield_parameter_space_one_axis (axis : string * (float * float * float))
  (xs : list float) :
  expand_axis axis = inr xs ->
  yield_parameter_space [axis] = inr (map (fun x => [x]) xs).
Proof.
  intros Hx. rewrite yield_parameter_space_expand. simpl. rewrite Hx. simpl.
  unfold ret, product. simpl. rewrite app_nil_r. reflexivity.
Qed.

Lemma no_parameters (params : list (string * string)) :
  (forall p, In p params -> fst p = "return"%string) ->
  filter (fun p => negb (String.eqb (fst p) "return")) params = [].
Proof.
  induction params as [|p ps IH]; intros H; simpl; [reflexivity|].
  rewrite (H p (or_introl eq_refl)). simpl.
  apply IH. intros q Hq. apply H. right. assumption.
Qed.

(** X24.  A target that declares no parameter is called once, with no
    argument; when its call returns and the stream refuses nothing,
    [main] returns [EXIT.OK] and the file is one line: a space, the
    result and a newline. *)
Theorem main_no_parameters (fmt6 : float -> string) (env : environment)
  (script : string) (m : module) (f : function) (n : Z) (v : float)
  (evs : list event) (w : world) (r : py EXIT) :
  import_module env script = inr m ->
  mod_main m = Some (Function f) ->
  (forall p, In p (annotations f) -> fst p = "return"%string) ->
  cpu_count env = Some n ->
  2 <= n ->
  call f [] = Returned v ->
  main fmt6 env script evs w r ->
  completed evs = [[]]
  /\ (Forall (fun ev => ~ write_failed ev) evs ->
      r = inr OK
      /\ out_swp w = [(" " ++ fmt6 v ++ newline)%string]).
Proof.
  intros Himp Hmain Hnone Hcpu Hn Hcall Hrun.
  assert (Hparser : make_parser_for_main m
                    = inr ([], option_map snd
                                 (find (fun p => String.eqb (fst p) "return")
                                    (annotations f)))).
  { unfold make_parser_for_main. rewrite Hmain, (no_parameters _ Hnone). reflexivity. }
  pose proof (main_dispatch_parsed env script m _ _ [] Himp Hmain Hparser eq_refl) as Hd.
  rewrite Hcpu in Hd. unfold cores_of, ProcessPoolExecutor, ret, raise in Hd.
  cbv beta iota zeta in Hd.
  destruct (Z.leb_spec (n - 1) 0) as [Hle|_]; [lia|].
  cbv beta iota in Hd.
  change (yield_parameter_space []) with (@inr exn _ [@nil float]) in Hd.
  cbv beta iota in Hd.
  set (w0 := fst (for_each exe_submit [[]]
                    (fst (print (Str "starting task submission")
                            (if swap_exists env
                             then fst (print (Str "resetting swap file...") world0)
                             else world0))))) in Hd.
  assert (E : exe w0 = [[]]) by (subst w0; destruct (swap_exists env); reflexivity).
  assert (Hs : survives (call f) (exe w0)).
  { rewrite E. constructor; [|constructor]. rewrite Hcall. reflexivity. }
  split.
  - destruct (main_run fmt6 _ _ _ _ _ _ _ Hd Hrun)
      as (evs' & w' & fault & Hpools & [He Ht] & -> & _ & _).
    destruct (run_tasks fmt6 _ _ _ _ Hpools Hs) as [Hcompleted _].
    destruct (close_events_tasks fault w') as [C _].
    rewrite completed_app, C, app_nil_r.
    rewrite He, E in Hcompleted. simpl in Hcompleted.
    apply Permutation_sym, Permutation_length_1_inv in Hcompleted. exact Hcompleted.
  - intros Hok.
    destruct (main_undisturbed fmt6 _ _ _ _ _ _ _ Hd Hrun Hs Hok) as [Hr Hlines].
    split; [exact Hr|].
    simpl target in Hlines. rewrite E in Hlines. simpl in Hlines.
    rewrite Hcall in Hlines. simpl in Hlines.
    apply Permutation_sym, Permutation_length_1_inv in Hlines. exact Hlines.
Qed.

(** X24 for a target that returns 4. *)
Lemma main_no_parameters_witness :
  import_module (Example.env Cases.answer_script 4) "answer" = inr Cases.answer_script
  /\ (forall p, In p (annotations Cases.answer_function) -> fst p = "return"%string)
  /\ 2 <= 4
  /\ call Cases.answer_function [] = Returned 4%float
  /\ main Example.fmt (Example.env Cases.answer_script 4) "answer"
       [Completed [] (Returned 4); Saved [] 4 None (inr None);
        Flushed [ " 4.0" ++ newline ]%string]%float
       {| stdout := [Str "starting task submission";
                     Str "All tasks done, file closed succesfully"];
          out_swp := [ " 4.0" ++ newline ]%string; fp_buffer := [];
          exe := []; thread_pool := [] |}
       (inr OK)
  /\ completed [Completed [] (Returned 4); Saved [] 4 None (inr None);
                Flushed [ " 4.0" ++ newline ]%string]%float = [[]]
  /\ @inr exn EXIT OK = inr OK
  /\ [ " 4.0" ++ newline ]%string = [(" " ++ Example.fmt 4 ++ newline)%string].
Proof.
  assert (Hnone : forall p, In p (annotations Cases.answer_function) ->
                            fst p = "return"%string)
    by (intros p [<-|[]]; reflexivity).
  assert (Hn : 2 <= 4) by (intros E; discriminate E).
  assert (Hmain : main Example.fmt (Example.env Cases.answer_script 4) "answer"
                    [Completed [] (Returned 4); Saved [] 4 None (inr None);
                     Flushed [ " 4.0" ++ newline ]%string]%float
                    {| stdout := [Str "starting task submission";
                                  Str "All tasks done, file closed succesfully"];
                       out_swp := [ " 4.0" ++ newline ]%string; fp_buffer := [];
                       exe := []; thread_pool := [] |}
                    (inr OK))
    by exact (main_fifo Example.fmt Example.no_fault None
                (Example.env Cases.answer_script 4) "answer").
  assert (Hok : Forall (fun ev => ~ write_failed ev)
                  [Completed [] (Returned 4); Saved [] 4 None (inr None);
                   Flushed [ " 4.0" ++ newline ]%string]%float)
    by (repeat (apply Forall_cons; [intros H; exact H|]); apply Forall_nil).
  destruct (main_no_parameters Example.fmt (Example.env Cases.answer_script 4) "answer"
              Cases.answer_script Cases.answer_function 4 4%float _ _ _
              eq_refl eq_refl Hnone eq_refl Hn eq_refl Hmain) as (Hc & Hline).
  exact (conj eq_refl (conj Hnone (conj Hn (conj eq_refl (conj Hmain
           (conj Hc (Hline Hok))))))).
Defined.

(** X23 for the axis [a: (0, 2, 1)]: the tuples [(0,)], [(1,)], [(2,)]. *)
Lemma yield_parameter_space_one_axis_witness :
  expand_axis ("a"%string, (0, 2, 1)%float) = inr [0; 1; 2]%float
  /\ yield_parameter_space [("a"%string, (0, 2, 1)%float)]
     = inr (map (fun x => [x]) [0; 1; 2]%float).
Proof.
  exact (conj eq_refl
           (yield_parameter_space_one_axis ("a"%string, (0, 2, 1)%float)
              [0; 1; 2]%float eq_refl)).
Defined.
